(** * MAVSDK offboard-control senders: command state machine

    Shallow embedding of the two keyboard/mouse driven senders

      - [examples/attitude_sender_example.py]       (module [Att])
      - [examples/body_velocity_sender_example.py]  (module [Vel])

    Modelling conventions.

    - Python numbers (the [int] literals [0] and the [float] literals
      [0.5], [0.02], [1.0], [2.0], [5.0]) are exact rationals [Q];
      binary rounding of [float] is not modelled.  Arithmetic facts are
      therefore stated with [==] ([Qeq]); facts that involve no
      arithmetic are stated with Leibniz equality on whole states.
    - The module-level globals of a script, together with the datagrams
      handed to [sock.sendto] so far (oldest first), form one record
      [World]; every handler is a function [World -> World].
    - [main]'s local [running] is threaded next to the [World].
    - One iteration of [while running:] consumes the batch returned by
      [pygame.event.get()]; a run of [main] is driven by the list of
      those batches.
    - Rendering ([display_text], [Button.draw], [Button.active]) has no
      effect on the globals or on the socket and is left out.
    - [control_packet.py] is imported by both scripts but is not among
      the sources: the packet record follows the keyword arguments of
      the constructor calls, and the codec is modelled from the spec
      over an abstract wire format. *)

From Stdlib Require Import QArith Qround Lqa ZArith Lia List Bool String.
From Stdlib Require Import Strings.Byte.
Import ListNotations.

Local Open Scope Q_scope.

(** ** Python's two-argument [min] and [max]

    [min(a, b)] keeps [a] unless [b < a]; [max(a, b)] keeps [a] unless
    [b > a]. *)

Definition Qlt_bool (x y : Q) : bool := negb (Qle_bool y x).

Definition py_min (a b : Q) : Q := if Qlt_bool b a then b else a.

Definition py_max (a b : Q) : Q := if Qlt_bool a b then b else a.

(** ** [control_packet.ControlPacket] and [control_packet.SetpointMode] *)

(** Modelled from the spec: [control_packet.py] is not among the sources;
    the two enumeration members are the ones the senders name. *)
Inductive SetpointMode : Set :=
| ATTITUDE_CONTROL
| VELOCITY_BODY.

(** Modelled from the spec: [control_packet.py] is not among the sources;
    the record has one field per keyword argument the senders pass to the
    [ControlPacket] constructor (the spec's Command Packet). *)
Record ControlPacket : Set := mkControlPacket {
  mode : SetpointMode;
  enable_flag : bool;
  yaw_control_flag : bool;
  position : Q * Q * Q;
  velocity : Q * Q * Q;
  acceleration : Q * Q * Q;
  attitude : Q * Q * Q * Q;
  attitude_rate : Q * Q * Q
}.

(** ** The pygame events the main loops look at *)

Inductive Key : Set :=
| K_q | K_e | K_c | K_m | K_h
| K_w | K_s | K_a | K_d
| K_UP | K_DOWN | K_LEFT | K_RIGHT
| K_other.

(** [MOUSEBUTTONDOWN] carries the value [pygame.mouse.get_pos()] has when
    the event is handled. *)
Inductive Event : Set :=
| QUIT
| KEYDOWN (key : Key)
| KEYUP (key : Key)
| MOUSEBUTTONDOWN (mouse_pos : Z * Z)
| MOUSEBUTTONUP
| OTHEREVENT.

(** ** [class Button] (identical in both scripts) *)

Section Button.

Variable W : Type.

Record Button : Type := mkButton {
  text : string;
  btn_position : Z * Z;
  size : Z * Z;
  action : W -> W;
  release_action : option (W -> W)
}.

Definition click (b : Button) (w : W) : W := action b w.

Definition release (b : Button) (w : W) : W :=
  match release_action b with
  | Some f => f w
  | None => w
  end.

Definition is_clicked (b : Button) (mouse_pos : Z * Z) : bool :=
  let '(x, y) := mouse_pos in
  ((fst (btn_position b) <=? x) && (x <=? fst (btn_position b) + fst (size b)))%Z
  && ((snd (btn_position b) <=? y) && (y <=? snd (btn_position b) + snd (size b)))%Z.

(** [for button in buttons: if button.is_clicked(mouse_pos): button.click()] *)
Fixpoint click_all (bs : list Button) (mouse_pos : Z * Z) (w : W) : W :=
  match bs with
  | [] => w
  | b :: bs' =>
      click_all bs' mouse_pos (if is_clicked b mouse_pos then click b w else w)
  end.

(** [for button in buttons: button.release()] *)
Fixpoint release_all (bs : list Button) (w : W) : W :=
  match bs with
  | [] => w
  | b :: bs' => release_all bs' (release b w)
  end.

End Button.

Arguments mkButton {W}.
Arguments text {W}.
Arguments btn_position {W}.
Arguments size {W}.
Arguments action {W}.
Arguments release_action {W}.
Arguments click {W}.
Arguments release {W}.
Arguments is_clicked {W}.
Arguments click_all {W}.
Arguments release_all {W}.

(** ** [attitude_sender_example.py] *)

Module Att.

Definition ROLL_PITCH_STEP : Q := 2.
Definition YAW_RATE_STEP : Q := 5.
Definition THRUST_STEP : Q := 1 # 50.

Record World : Type := mkWorld {
  roll : Q;
  pitch : Q;
  yaw : Q;
  thrust : Q;
  enabled : bool;
  INCREMENTAL_MODE : bool;
  sock : list ControlPacket
}.

(** Module initialisation: [roll, pitch, yaw, thrust = 0, 0, 0, 0.5],
    [enabled = False], [INCREMENTAL_MODE = False], nothing sent. *)
Definition initial : World :=
  mkWorld 0 0 0 (1 # 2) false false [].

Definition set_roll (v : Q) (w : World) : World :=
  mkWorld v (pitch w) (yaw w) (thrust w) (enabled w) (INCREMENTAL_MODE w) (sock w).

Definition set_pitch (v : Q) (w : World) : World :=
  mkWorld (roll w) v (yaw w) (thrust w) (enabled w) (INCREMENTAL_MODE w) (sock w).

Definition set_yaw (v : Q) (w : World) : World :=
  mkWorld (roll w) (pitch w) v (thrust w) (enabled w) (INCREMENTAL_MODE w) (sock w).

Definition set_thrust (v : Q) (w : World) : World :=
  mkWorld (roll w) (pitch w) (yaw w) v (enabled w) (INCREMENTAL_MODE w) (sock w).

Definition set_enabled (b : bool) (w : World) : World :=
  mkWorld (roll w) (pitch w) (yaw w) (thrust w) b (INCREMENTAL_MODE w) (sock w).

Definition set_INCREMENTAL_MODE (b : bool) (w : World) : World :=
  mkWorld (roll w) (pitch w) (yaw w) (thrust w) (enabled w) b (sock w).

Definition sendto (p : ControlPacket) (w : World) : World :=
  mkWorld (roll w) (pitch w) (yaw w) (thrust w) (enabled w) (INCREMENTAL_MODE w)
          (sock w ++ [p]).

(** The packet [send_attitude] builds. *)
Definition attitude_packet (r p y t : Q) : ControlPacket :=
  {| mode := ATTITUDE_CONTROL;
     enable_flag := true;
     yaw_control_flag := true;
     position := (0, 0, 0);
     velocity := (0, 0, 0);
     acceleration := (0, 0, 0);
     attitude := (r, p, y, t);
     attitude_rate := (0, 0, 0) |}.

Definition send_attitude (r p y t : Q) (w : World) : World :=
  sendto (attitude_packet r p y t) w.

Definition enable_control (w : World) : World := set_enabled true w.

Definition disable_control (w : World) : World :=
  send_attitude 0 0 0 0 (set_enabled false w).

Definition reset_control (w : World) : World :=
  mkWorld 0 0 0 (1 # 2) (enabled w) (INCREMENTAL_MODE w) (sock w).

(** [pitch -= ROLL_PITCH_STEP if INCREMENTAL_MODE else -ROLL_PITCH_STEP] *)
Definition adjust_pitch_up (w : World) : World :=
  set_pitch (pitch w - (if INCREMENTAL_MODE w then ROLL_PITCH_STEP else - ROLL_PITCH_STEP)) w.

(** [pitch -= ROLL_PITCH_STEP if INCREMENTAL_MODE else ROLL_PITCH_STEP] *)
Definition adjust_pitch_down (w : World) : World :=
  set_pitch (pitch w - (if INCREMENTAL_MODE w then ROLL_PITCH_STEP else ROLL_PITCH_STEP)) w.

(** [roll -= ROLL_PITCH_STEP if INCREMENTAL_MODE else -ROLL_PITCH_STEP] *)
Definition adjust_roll_left (w : World) : World :=
  set_roll (roll w - (if INCREMENTAL_MODE w then ROLL_PITCH_STEP else - ROLL_PITCH_STEP)) w.

(** [roll += ROLL_PITCH_STEP if INCREMENTAL_MODE else ROLL_PITCH_STEP] *)
Definition adjust_roll_right (w : World) : World :=
  set_roll (roll w + (if INCREMENTAL_MODE w then ROLL_PITCH_STEP else ROLL_PITCH_STEP)) w.

(** [thrust = min(thrust + THRUST_STEP, 1.0)] *)
Definition increase_thrust (w : World) : World :=
  set_thrust (py_min (thrust w + THRUST_STEP) 1) w.

(** [thrust = max(thrust - THRUST_STEP, 0)] *)
Definition decrease_thrust (w : World) : World :=
  set_thrust (py_max (thrust w - THRUST_STEP) 0) w.

(** [yaw -= YAW_RATE_STEP if not INCREMENTAL_MODE else (yaw - YAW_RATE_STEP)] *)
Definition yaw_left (w : World) : World :=
  set_yaw (yaw w - (if negb (INCREMENTAL_MODE w) then YAW_RATE_STEP
                    else (yaw w - YAW_RATE_STEP))) w.

(** [yaw += YAW_RATE_STEP if not INCREMENTAL_MODE else (yaw + YAW_RATE_STEP)] *)
Definition yaw_right (w : World) : World :=
  set_yaw (yaw w + (if negb (INCREMENTAL_MODE w) then YAW_RATE_STEP
                    else (yaw w + YAW_RATE_STEP))) w.

Definition toggle_mode (w : World) : World :=
  set_INCREMENTAL_MODE (negb (INCREMENTAL_MODE w)) w.

Definition reset_roll (w : World) : World := set_roll 0 w.

Definition reset_pitch (w : World) : World := set_pitch 0 w.

(** The body of [reset_thrust] is [pass]; the assignment
    [thrust = 0.5] is commented out in the source. *)
Definition reset_thrust (w : World) : World := w.

Definition reset_yaw (w : World) : World := set_yaw 0 w.

Definition check_enabled (act : World -> World) : World -> World :=
  fun w => if enabled w then act w else w.

Definition check_and_reset (act : World -> World) : World -> World :=
  fun w => if negb (INCREMENTAL_MODE w) then act w else w.

Definition buttons : list (Button World) :=
  [ mkButton "Enable" (50, 150)%Z (100, 50)%Z enable_control None;
    mkButton "Disable" (50, 220)%Z (100, 50)%Z disable_control None;
    mkButton "Hold" (50, 290)%Z (100, 50)%Z reset_control None;
    mkButton "Mode" (50, 360)%Z (100, 50)%Z toggle_mode None;
    mkButton "Pitch Up" (600, 290)%Z (100, 50)%Z
             (check_enabled adjust_pitch_up) (Some (check_and_reset reset_pitch));
    mkButton "Pitch Down" (600, 150)%Z (100, 50)%Z
             (check_enabled adjust_pitch_down) (Some (check_and_reset reset_pitch));
    mkButton "Roll Left" (500, 220)%Z (100, 50)%Z
             (check_enabled adjust_roll_left) (Some (check_and_reset reset_roll));
    mkButton "Roll Right" (700, 220)%Z (100, 50)%Z
             (check_enabled adjust_roll_right) (Some (check_and_reset reset_roll));
    mkButton "Increase Thrust" (275, 150)%Z (150, 50)%Z
             (check_enabled increase_thrust) (Some (check_and_reset reset_thrust));
    mkButton "Decrease Thrust" (275, 290)%Z (150, 50)%Z
             (check_enabled decrease_thrust) (Some (check_and_reset reset_thrust));
    mkButton "Yaw Left" (200, 220)%Z (100, 50)%Z
             (check_enabled yaw_left) (Some (check_and_reset reset_yaw));
    mkButton "Yaw Right" (375, 220)%Z (100, 50)%Z
             (check_enabled yaw_right) (Some (check_and_reset reset_yaw)) ].

(** The [KEYDOWN] branch of [main]: the command chain
    ([q], [e], [c], [m], [h]) followed by the axis chain under
    [if enabled:], which reads [enabled] after the first chain ran. *)
Definition on_keydown (key : Key) (w : World) (running : bool) : World * bool :=
  let '(w1, running1) :=
    match key with
    | K_q => (send_attitude 0 0 0 0 w, false)
    | K_e => (enable_control w, running)
    | K_c => (disable_control w, running)
    | K_m => (toggle_mode w, running)
    | K_h => (reset_control w, running)
    | _ => (w, running)
    end in
  let w2 :=
    if enabled w1 then
      match key with
      | K_w => adjust_pitch_up w1
      | K_s => adjust_pitch_down w1
      | K_a => adjust_roll_left w1
      | K_d => adjust_roll_right w1
      | K_UP => increase_thrust w1
      | K_DOWN => decrease_thrust w1
      | K_LEFT => yaw_left w1
      | K_RIGHT => yaw_right w1
      | _ => w1
      end
    else w1 in
  (w2, running1).

(** The [KEYUP] branch of [main]. *)
Definition on_keyup (key : Key) (w : World) : World :=
  if negb (INCREMENTAL_MODE w) then
    match key with
    | K_w | K_s => reset_pitch w
    | K_a | K_d => reset_roll w
    | K_UP | K_DOWN => reset_thrust w
    | K_LEFT | K_RIGHT => reset_yaw w
    | _ => w
    end
  else w.

(** Body of [for event in pygame.event.get():]. *)
Definition handle_event (e : Event) (st : World * bool) : World * bool :=
  let '(w, running) := st in
  match e with
  | QUIT => (w, false)
  | KEYDOWN key => on_keydown key w running
  | KEYUP key => (on_keyup key w, running)
  | MOUSEBUTTONDOWN mouse_pos => (click_all buttons mouse_pos w, running)
  | MOUSEBUTTONUP => (release_all buttons w, running)
  | OTHEREVENT => (w, running)
  end.

Definition handle_events (es : list Event) (st : World * bool) : World * bool :=
  fold_left (fun st e => handle_event e st) es st.

(** One iteration of [while running:]: drain the events, then
    [if enabled: send_attitude(roll, pitch, yaw, thrust)]. *)
Definition iteration (es : list Event) (st : World * bool) : World * bool :=
  let '(w, running) := handle_events es st in
  (if enabled w then send_attitude (roll w) (pitch w) (yaw w) (thrust w) w else w,
   running).

(** [while running:] over the successive event batches; the loop
    condition is tested only between iterations. *)
Fixpoint main_loop (batches : list (list Event)) (st : World * bool) : World * bool :=
  match batches with
  | [] => st
  | es :: rest =>
      if snd st then main_loop rest (iteration es st) else st
  end.

Definition main (batches : list (list Event)) : World :=
  fst (main_loop batches (initial, true)).

End Att.

(** ** [body_velocity_sender_example.py] *)

Module Vel.

Definition DEFAULT_SPEED : Q := 1.
Definition YAW_RATE_STEP : Q := 5.

Record World : Type := mkWorld {
  velocity_x : Q;
  velocity_y : Q;
  velocity_z : Q;
  yaw_rate : Q;
  enabled : bool;
  INCREMENTAL_MODE : bool;
  sock : list ControlPacket
}.

(** Module initialisation:
    [velocity_x, velocity_y, velocity_z, yaw_rate = 0, 0, 0, 0],
    [enabled = False], [INCREMENTAL_MODE = False], nothing sent. *)
Definition initial : World :=
  mkWorld 0 0 0 0 false false [].

Definition set_velocity_x (v : Q) (w : World) : World :=
  mkWorld v (velocity_y w) (velocity_z w) (yaw_rate w) (enabled w)
          (INCREMENTAL_MODE w) (sock w).

Definition set_velocity_y (v : Q) (w : World) : World :=
  mkWorld (velocity_x w) v (velocity_z w) (yaw_rate w) (enabled w)
          (INCREMENTAL_MODE w) (sock w).

Definition set_velocity_z (v : Q) (w : World) : World :=
  mkWorld (velocity_x w) (velocity_y w) v (yaw_rate w) (enabled w)
          (INCREMENTAL_MODE w) (sock w).

Definition set_yaw_rate (v : Q) (w : World) : World :=
  mkWorld (velocity_x w) (velocity_y w) (velocity_z w) v (enabled w)
          (INCREMENTAL_MODE w) (sock w).

Definition set_enabled (b : bool) (w : World) : World :=
  mkWorld (velocity_x w) (velocity_y w) (velocity_z w) (yaw_rate w) b
          (INCREMENTAL_MODE w) (sock w).

Definition set_INCREMENTAL_MODE (b : bool) (w : World) : World :=
  mkWorld (velocity_x w) (velocity_y w) (velocity_z w) (yaw_rate w) (enabled w)
          b (sock w).

Definition sendto (p : ControlPacket) (w : World) : World :=
  mkWorld (velocity_x w) (velocity_y w) (velocity_z w) (yaw_rate w) (enabled w)
          (INCREMENTAL_MODE w) (sock w ++ [p]).

(** The packet [send_velocity_body] builds. *)
Definition velocity_body_packet (vx vy vz yr : Q) : ControlPacket :=
  {| mode := VELOCITY_BODY;
     enable_flag := true;
     yaw_control_flag := true;
     position := (0, 0, 0);
     velocity := (vx, vy, vz);
     acceleration := (0, 0, 0);
     attitude := (0, 0, 0, 0);
     attitude_rate := (0, 0, yr) |}.

Definition send_velocity_body (vx vy vz yr : Q) (w : World) : World :=
  sendto (velocity_body_packet vx vy vz yr) w.

Definition enable_control (w : World) : World := set_enabled true w.

Definition disable_control (w : World) : World :=
  send_velocity_body 0 0 0 0 (set_enabled false w).

Definition reset_control (w : World) : World :=
  mkWorld 0 0 0 0 (enabled w) (INCREMENTAL_MODE w) (sock w).

(** [velocity_x = velocity_x + DEFAULT_SPEED if INCREMENTAL_MODE else DEFAULT_SPEED] *)
Definition move_forward (w : World) : World :=
  set_velocity_x (if INCREMENTAL_MODE w then velocity_x w + DEFAULT_SPEED
                  else DEFAULT_SPEED) w.

(** [velocity_x = velocity_x - DEFAULT_SPEED if INCREMENTAL_MODE else -DEFAULT_SPEED] *)
Definition move_backward (w : World) : World :=
  set_velocity_x (if INCREMENTAL_MODE w then velocity_x w - DEFAULT_SPEED
                  else - DEFAULT_SPEED) w.

(** [velocity_y = velocity_y - DEFAULT_SPEED if INCREMENTAL_MODE else -DEFAULT_SPEED] *)
Definition move_left (w : World) : World :=
  set_velocity_y (if INCREMENTAL_MODE w then velocity_y w - DEFAULT_SPEED
                  else - DEFAULT_SPEED) w.

(** [velocity_y = velocity_y + DEFAULT_SPEED if INCREMENTAL_MODE else DEFAULT_SPEED] *)
Definition move_right (w : World) : World :=
  set_velocity_y (if INCREMENTAL_MODE w then velocity_y w + DEFAULT_SPEED
                  else DEFAULT_SPEED) w.

(** [velocity_z = velocity_z - DEFAULT_SPEED if INCREMENTAL_MODE else -DEFAULT_SPEED] *)
Definition ascend (w : World) : World :=
  set_velocity_z (if INCREMENTAL_MODE w then velocity_z w - DEFAULT_SPEED
                  else - DEFAULT_SPEED) w.

(** [velocity_z = velocity_z + DEFAULT_SPEED if INCREMENTAL_MODE else DEFAULT_SPEED] *)
Definition descend (w : World) : World :=
  set_velocity_z (if INCREMENTAL_MODE w then velocity_z w + DEFAULT_SPEED
                  else DEFAULT_SPEED) w.

(** [yaw_rate = -YAW_RATE_STEP if not INCREMENTAL_MODE else (yaw_rate - YAW_RATE_STEP)] *)
Definition yaw_left (w : World) : World :=
  set_yaw_rate (if negb (INCREMENTAL_MODE w) then - YAW_RATE_STEP
                else (yaw_rate w - YAW_RATE_STEP)) w.

(** [yaw_rate = YAW_RATE_STEP if not INCREMENTAL_MODE else (yaw_rate + YAW_RATE_STEP)] *)
Definition yaw_right (w : World) : World :=
  set_yaw_rate (if negb (INCREMENTAL_MODE w) then YAW_RATE_STEP
                else (yaw_rate w + YAW_RATE_STEP)) w.

Definition toggle_mode (w : World) : World :=
  set_INCREMENTAL_MODE (negb (INCREMENTAL_MODE w)) w.

Definition reset_velocity_x (w : World) : World := set_velocity_x 0 w.

Definition reset_velocity_y (w : World) : World := set_velocity_y 0 w.

Definition reset_velocity_z (w : World) : World := set_velocity_z 0 w.

Definition reset_yaw_rate (w : World) : World := set_yaw_rate 0 w.

Definition check_enabled (act : World -> World) : World -> World :=
  fun w => if enabled w then act w else w.

Definition check_and_reset (act : World -> World) : World -> World :=
  fun w => if negb (INCREMENTAL_MODE w) then act w else w.

Definition buttons : list (Button World) :=
  [ mkButton "Enable" (50, 150)%Z (100, 50)%Z enable_control None;
    mkButton "Disable" (50, 220)%Z (100, 50)%Z disable_control None;
    mkButton "Hold" (50, 290)%Z (100, 50)%Z reset_control None;
    mkButton "Mode" (50, 360)%Z (100, 50)%Z toggle_mode None;
    mkButton "Forward" (600, 150)%Z (100, 50)%Z
             (check_enabled move_forward) (Some (check_and_reset reset_velocity_x));
    mkButton "Backward" (600, 290)%Z (100, 50)%Z
             (check_enabled move_backward) (Some (check_and_reset reset_velocity_x));
    mkButton "Left" (500, 220)%Z (100, 50)%Z
             (check_enabled move_left) (Some (check_and_reset reset_velocity_y));
    mkButton "Right" (700, 220)%Z (100, 50)%Z
             (check_enabled move_right) (Some (check_and_reset reset_velocity_y));
    mkButton "Ascend" (275, 150)%Z (100, 50)%Z
             (check_enabled ascend) (Some (check_and_reset reset_velocity_z));
    mkButton "Descend" (275, 290)%Z (100, 50)%Z
             (check_enabled descend) (Some (check_and_reset reset_velocity_z));
    mkButton "Yaw Left" (175, 220)%Z (100, 50)%Z
             (check_enabled yaw_left) (Some (check_and_reset reset_yaw_rate));
    mkButton "Yaw Right" (375, 220)%Z (100, 50)%Z
             (check_enabled yaw_right) (Some (check_and_reset reset_yaw_rate)) ].

(** The [KEYDOWN] branch of [main]. *)
Definition on_keydown (key : Key) (w : World) (running : bool) : World * bool :=
  let '(w1, running1) :=
    match key with
    | K_q => (send_velocity_body 0 0 0 0 w, false)
    | K_e => (enable_control w, running)
    | K_c => (disable_control w, running)
    | K_m => (toggle_mode w, running)
    | K_h => (reset_control w, running)
    | _ => (w, running)
    end in
  let w2 :=
    if enabled w1 then
      match key with
      | K_w => move_forward w1
      | K_s => move_backward w1
      | K_a => move_left w1
      | K_d => move_right w1
      | K_UP => ascend w1
      | K_DOWN => descend w1
      | K_LEFT => yaw_left w1
      | K_RIGHT => yaw_right w1
      | _ => w1
      end
    else w1 in
  (w2, running1).

(** The [KEYUP] branch of [main]. *)
Definition on_keyup (key : Key) (w : World) : World :=
  if negb (INCREMENTAL_MODE w) then
    match key with
    | K_w | K_s => reset_velocity_x w
    | K_a | K_d => reset_velocity_y w
    | K_UP | K_DOWN => reset_velocity_z w
    | K_LEFT | K_RIGHT => reset_yaw_rate w
    | _ => w
    end
  else w.

(** Body of [for event in pygame.event.get():]. *)
Definition handle_event (e : Event) (st : World * bool) : World * bool :=
  let '(w, running) := st in
  match e with
  | QUIT => (w, false)
  | KEYDOWN key => on_keydown key w running
  | KEYUP key => (on_keyup key w, running)
  | MOUSEBUTTONDOWN mouse_pos => (click_all buttons mouse_pos w, running)
  | MOUSEBUTTONUP => (release_all buttons w, running)
  | OTHEREVENT => (w, running)
  end.

Definition handle_events (es : list Event) (st : World * bool) : World * bool :=
  fold_left (fun st e => handle_event e st) es st.

(** One iteration of [while running:]. *)
Definition iteration (es : list Event) (st : World * bool) : World * bool :=
  let '(w, running) := handle_events es st in
  (if enabled w
   then send_velocity_body (velocity_x w) (velocity_y w) (velocity_z w) (yaw_rate w) w
   else w,
   running).

Fixpoint main_loop (batches : list (list Event)) (st : World * bool) : World * bool :=
  match batches with
  | [] => st
  | es :: rest =>
      if snd st then main_loop rest (iteration es st) else st
  end.

Definition main (batches : list (list Event)) : World :=
  fst (main_loop batches (initial, true)).

End Vel.

(** ** Key groups of the two [main] functions

    [axis_keys] are the eight keys tested by the chain under
    [if enabled:] in the [KEYDOWN] branch and by the [KEYUP] branch. *)

Definition axis_keys : list Key :=
  [K_w; K_s; K_a; K_d; K_UP; K_DOWN; K_LEFT; K_RIGHT].

(** ** Vocabulary of the statements *)

(** A packet is "zero" when every numeric slot is the literal [0]. *)
Definition all_numeric_fields_zero (p : ControlPacket) : Prop :=
  position p = (0, 0, 0) /\ velocity p = (0, 0, 0) /\
  acceleration p = (0, 0, 0) /\ attitude p = (0, 0, 0, 0) /\
  attitude_rate p = (0, 0, 0).

(** The range the attitude sender keeps [thrust] in. *)
Definition thrust_in_range (w : Att.World) : Prop :=
  0 <= Att.thrust w /\ Att.thrust w <= 1.

(** Fields outside the subset the mode gives a meaning to are the
    literal zero: for [ATTITUDE_CONTROL] everything but [attitude], for
    [VELOCITY_BODY] everything but [velocity] and the yaw-rate slot of
    [attitude_rate]. *)
Definition mode_pure (p : ControlPacket) : Prop :=
  match mode p with
  | ATTITUDE_CONTROL =>
      position p = (0, 0, 0) /\ velocity p = (0, 0, 0) /\
      acceleration p = (0, 0, 0) /\ attitude_rate p = (0, 0, 0)
  | VELOCITY_BODY =>
      position p = (0, 0, 0) /\ acceleration p = (0, 0, 0) /\
      attitude p = (0, 0, 0, 0) /\
      exists yaw_rate : Q, attitude_rate p = (0, 0, yaw_rate)
  end.

Definition attitude_sock_pure (w : Att.World) : Prop :=
  Forall (fun p => mode p = ATTITUDE_CONTROL /\ mode_pure p) (Att.sock w).

Definition velocity_sock_pure (w : Vel.World) : Prop :=
  Forall (fun p => mode p = VELOCITY_BODY /\ mode_pure p) (Vel.sock w).

(** Two buttons whose rectangles have no point in common. *)
Definition rect_disjoint {W : Type} (b1 b2 : Button W) : bool :=
  ((fst (btn_position b1) + fst (size b1) <? fst (btn_position b2))
   || (fst (btn_position b2) + fst (size b2) <? fst (btn_position b1))
   || (snd (btn_position b1) + snd (size b1) <? snd (btn_position b2))
   || (snd (btn_position b2) + snd (size b2) <? snd (btn_position b1)))%Z.

(** All rectangles of a button list are pairwise disjoint. *)
Fixpoint pairwise_disjoint {W : Type} (bs : list (Button W)) : bool :=
  match bs with
  | [] => true
  | b :: bs' => forallb (rect_disjoint b) bs' && pairwise_disjoint bs'
  end.

(** The key that does what a button does, in the order of [buttons]
    (the same order in both scripts). *)
Definition button_keys : list Key :=
  [K_e; K_c; K_h; K_m; K_w; K_s; K_a; K_d; K_UP; K_DOWN; K_LEFT; K_RIGHT].

(** Events that can set [enabled]: the Enable key and any mouse press
    (it may land on the Enable button). *)
Definition may_enable (e : Event) : bool :=
  match e with
  | KEYDOWN K_e | MOUSEBUTTONDOWN _ => true
  | _ => false
  end.

(** Events that can change the control law: the Mode key and any mouse
    press (it may land on the Mode button). *)
Definition may_toggle (e : Event) : bool :=
  match e with
  | KEYDOWN K_m | MOUSEBUTTONDOWN _ => true
  | _ => false
  end.

(** Key presses whose handler calls the send function with zeros. *)
Definition sends_zero (e : Event) : bool :=
  match e with
  | KEYDOWN K_c | KEYDOWN K_q => true
  | _ => false
  end.

(** Events that clear [running]. *)
Definition stops_loop (e : Event) : bool :=
  match e with
  | QUIT | KEYDOWN K_q => true
  | _ => false
  end.

(** The thrust slot of a packet's [attitude] tuple. *)
Definition packet_thrust (p : ControlPacket) : Q := snd (attitude p).

(** The values an axis of the velocity sender takes under the
    instant-reset law. *)
Definition one_of_three (step v : Q) : Prop :=
  v == - step \/ v == 0 \/ v == step.

Definition velocity_axes_instant (w : Vel.World) : Prop :=
  one_of_three Vel.DEFAULT_SPEED (Vel.velocity_x w) /\
  one_of_three Vel.DEFAULT_SPEED (Vel.velocity_y w) /\
  one_of_three Vel.DEFAULT_SPEED (Vel.velocity_z w) /\
  one_of_three Vel.YAW_RATE_STEP (Vel.yaw_rate w).

(** The global an axis key is bound to, as its setter. *)
Definition attitude_axis (key : Key) : option (Q -> Att.World -> Att.World) :=
  match key with
  | K_w | K_s => Some Att.set_pitch
  | K_a | K_d => Some Att.set_roll
  | K_UP | K_DOWN => Some Att.set_thrust
  | K_LEFT | K_RIGHT => Some Att.set_yaw
  | _ => None
  end.

Definition velocity_axis (key : Key) : option (Q -> Vel.World -> Vel.World) :=
  match key with
  | K_w | K_s => Some Vel.set_velocity_x
  | K_a | K_d => Some Vel.set_velocity_y
  | K_UP | K_DOWN => Some Vel.set_velocity_z
  | K_LEFT | K_RIGHT => Some Vel.set_yaw_rate
  | _ => None
  end.

(** ** Setpoint packet codec *)

(** Modelled from the spec: [control_packet.py], which holds
    [ControlPacket.pack] and its inverse, is not among the sources.  The
    spec (4.1) fixes: a buffer of constant length for all modes, the
    mode tag read first, one fixed-width representation for every
    numeric field, and [MalformedPacket] on a wrong buffer length or an
    unknown mode tag.  It pins neither the field width, nor the byte
    order, nor the tag values: these are the components of a
    [WireFormat].  The two flags take one byte each, and the fields
    follow in the order of the data model (3). *)
Record WireFormat : Type := mkWireFormat {
  WIDTH : nat;
  encode_num : Q -> list byte;
  decode_num : list byte -> Q;
  mode_tag : SetpointMode -> byte
}.

Inductive Decoded : Type :=
| Packet (p : ControlPacket)
| MalformedPacket.

Section Codec.

Variable F : WireFormat.

Definition PACKET_SIZE : nat := 3 + 16 * WIDTH F.

Definition encode_flag (b : bool) : byte := if b then x01 else x00.

Definition decode_flag (b : byte) : bool := negb (Byte.eqb b x00).

Definition encode_vec3 (v : Q * Q * Q) : list byte :=
  let '(a, b, c) := v in
  encode_num F a ++ encode_num F b ++ encode_num F c.

Definition encode_vec4 (v : Q * Q * Q * Q) : list byte :=
  let '(a, b, c, d) := v in
  encode_num F a ++ encode_num F b ++ encode_num F c ++ encode_num F d.

Definition encode (p : ControlPacket) : list byte :=
  mode_tag F (mode p)
  :: encode_flag (enable_flag p)
  :: encode_flag (yaw_control_flag p)
  :: encode_vec3 (position p) ++ encode_vec3 (velocity p)
     ++ encode_vec3 (acceleration p) ++ encode_vec4 (attitude p)
     ++ encode_vec3 (attitude_rate p).

Definition decode_mode (tag : byte) : option SetpointMode :=
  if Byte.eqb tag (mode_tag F ATTITUDE_CONTROL) then Some ATTITUDE_CONTROL
  else if Byte.eqb tag (mode_tag F VELOCITY_BODY) then Some VELOCITY_BODY
  else None.

(** Read one numeric field off the front of the buffer. *)
Definition take_num (buf : list byte) : Q * list byte :=
  (decode_num F (firstn (WIDTH F) buf), skipn (WIDTH F) buf).

Definition take_vec3 (buf : list byte) : (Q * Q * Q) * list byte :=
  let '(a, buf1) := take_num buf in
  let '(b, buf2) := take_num buf1 in
  let '(c, buf3) := take_num buf2 in
  ((a, b, c), buf3).

Definition take_vec4 (buf : list byte) : (Q * Q * Q * Q) * list byte :=
  let '(a, buf1) := take_num buf in
  let '(b, buf2) := take_num buf1 in
  let '(c, buf3) := take_num buf2 in
  let '(d, buf4) := take_num buf3 in
  ((a, b, c, d), buf4).

Definition decode (buf : list byte) : Decoded :=
  if negb (List.length buf =? PACKET_SIZE)%nat then MalformedPacket
  else
    match buf with
    | tag :: en :: yc :: body =>
        match decode_mode tag with
        | None => MalformedPacket
        | Some m =>
            let '(pos, body1) := take_vec3 body in
            let '(vel, body2) := take_vec3 body1 in
            let '(acc, body3) := take_vec3 body2 in
            let '(att, body4) := take_vec4 body3 in
            let '(rate, _) := take_vec3 body4 in
            Packet {| mode := m;
                      enable_flag := decode_flag en;
                      yaw_control_flag := decode_flag yc;
                      position := pos;
                      velocity := vel;
                      acceleration := acc;
                      attitude := att;
                      attitude_rate := rate |}
        end
    | _ => MalformedPacket
    end.

(** A number is representable when the field representation gives it
    back; a packet is valid when its flags are booleans (they are, by
    type) and its sixteen numbers are representable. *)
Definition representable (x : Q) : Prop :=
  decode_num F (encode_num F x) = x.

Definition numeric_fields (p : ControlPacket) : list Q :=
  let '(px, py, pz) := position p in
  let '(vx, vy, vz) := velocity p in
  let '(ax, ay, az) := acceleration p in
  let '(r, pi, y, t) := attitude p in
  let '(rr, pr, yr) := attitude_rate p in
  [px; py; pz; vx; vy; vz; ax; ay; az; r; pi; y; t; rr; pr; yr].

Definition valid_packet (p : ControlPacket) : Prop :=
  Forall representable (numeric_fields p).

End Codec.

(** A concrete wire format to run the codec on: every number is sent as
    a count of hundredths in 32-bit two's complement, least significant
    byte first; the tags are 0 and 1. *)
Definition byte_of_Z (z : Z) : byte :=
  match Byte.of_N (Z.to_N (z mod 256)) with
  | Some b => b
  | None => x00
  end.

Definition Z_of_byte (b : byte) : Z := Z.of_N (Byte.to_N b).

Definition le32_of_Z (z : Z) : list byte :=
  [ byte_of_Z z;
    byte_of_Z (z / 256);
    byte_of_Z (z / 65536);
    byte_of_Z (z / 16777216) ].

Definition Z_of_le32 (bs : list byte) : Z :=
  let u := fold_right (fun b acc => Z_of_byte b + 256 * acc)%Z 0%Z bs in
  if (u <? 2147483648)%Z then u else (u - 4294967296)%Z.

Definition hundredths_le32 : WireFormat :=
  {| WIDTH := 4;
     encode_num := fun x => le32_of_Z (Qfloor (x * 100));
     decode_num := fun bs => Qred (Z_of_le32 bs # 100);
     mode_tag := fun m => match m with
                          | ATTITUDE_CONTROL => x00
                          | VELOCITY_BODY => x01
                          end |}.

(** * Properties *)

(** ** Disable and Quit *)

Lemma attitude_keydown_c (w : Att.World) (running : bool) :
  Att.handle_event (KEYDOWN K_c) (w, running) = (Att.disable_control w, running).
Proof. reflexivity. Qed.

Lemma velocity_keydown_c (w : Vel.World) (running : bool) :
  Vel.handle_event (KEYDOWN K_c) (w, running) = (Vel.disable_control w, running).
Proof. reflexivity. Qed.

Lemma attitude_keydown_q (w : Att.World) (running : bool) :
  Att.handle_event (KEYDOWN K_q) (w, running) = (Att.send_attitude 0 0 0 0 w, false).
Proof.
  unfold Att.handle_event, Att.on_keydown.
  destruct (Att.enabled (Att.send_attitude 0 0 0 0 w)); reflexivity.
Qed.

Lemma velocity_keydown_q (w : Vel.World) (running : bool) :
  Vel.handle_event (KEYDOWN K_q) (w, running) = (Vel.send_velocity_body 0 0 0 0 w, false).
Proof.
  unfold Vel.handle_event, Vel.on_keydown.
  destruct (Vel.enabled (Vel.send_velocity_body 0 0 0 0 w)); reflexivity.
Qed.

(** C1, as stated, fails: the packet [disable_control] sends from the
    initial state of the attitude sender is not a packet with
    [enable_flag = false]. *)
Lemma C1_disable_enable_flag_counterexample :
  ~ (exists p : ControlPacket,
        Att.sock (fst (Att.handle_event (KEYDOWN K_c) (Att.initial, true))) = [p]
        /\ enable_flag p = false).
Proof.
  intros [p [Hsock Hflag]]. cbn in Hsock.
  injection Hsock as <-. discriminate Hflag.
Qed.

(** C1 (amended).  In both senders, for every state, the Disable key
    clears [enabled], leaves every axis value and the control law alone
    and appends exactly one packet to the socket; that packet has every
    numeric field zero (attitude thrust 0, not 0.5) and carries
    [enable_flag = true], as every packet of the senders does.  The loop
    iteration that handles Disable alone sends nothing else.  The Quit
    key appends one identical packet and clears [running]. *)
Theorem C1_disable_quit_emit_zero_packet :
  (forall (w : Att.World) (running : bool),
      let p := Att.attitude_packet 0 0 0 0 in
      all_numeric_fields_zero p /\ enable_flag p = true /\
      mode p = ATTITUDE_CONTROL /\
      Att.handle_event (KEYDOWN K_c) (w, running)
        = (Att.mkWorld (Att.roll w) (Att.pitch w) (Att.yaw w) (Att.thrust w) false
                     (Att.INCREMENTAL_MODE w) (Att.sock w ++ [p]), running) /\
      Att.iteration [KEYDOWN K_c] (w, running)
        = (Att.mkWorld (Att.roll w) (Att.pitch w) (Att.yaw w) (Att.thrust w) false
                     (Att.INCREMENTAL_MODE w) (Att.sock w ++ [p]), running) /\
      Att.handle_event (KEYDOWN K_q) (w, running)
        = (Att.mkWorld (Att.roll w) (Att.pitch w) (Att.yaw w) (Att.thrust w) (Att.enabled w)
                     (Att.INCREMENTAL_MODE w) (Att.sock w ++ [p]), false))
  /\
  (forall (w : Vel.World) (running : bool),
      let p := Vel.velocity_body_packet 0 0 0 0 in
      all_numeric_fields_zero p /\ enable_flag p = true /\
      mode p = VELOCITY_BODY /\
      Vel.handle_event (KEYDOWN K_c) (w, running)
        = (Vel.mkWorld (Vel.velocity_x w) (Vel.velocity_y w) (Vel.velocity_z w)
                     (Vel.yaw_rate w) false (Vel.INCREMENTAL_MODE w)
                     (Vel.sock w ++ [p]), running) /\
      Vel.iteration [KEYDOWN K_c] (w, running)
        = (Vel.mkWorld (Vel.velocity_x w) (Vel.velocity_y w) (Vel.velocity_z w)
                     (Vel.yaw_rate w) false (Vel.INCREMENTAL_MODE w)
                     (Vel.sock w ++ [p]), running) /\
      Vel.handle_event (KEYDOWN K_q) (w, running)
        = (Vel.mkWorld (Vel.velocity_x w) (Vel.velocity_y w) (Vel.velocity_z w)
                     (Vel.yaw_rate w) (Vel.enabled w) (Vel.INCREMENTAL_MODE w)
                     (Vel.sock w ++ [p]), false)).
Proof.
  split; intros w running p; subst p.
  - repeat split.
    rewrite attitude_keydown_q. reflexivity.
  - repeat split.
    rewrite velocity_keydown_q. reflexivity.
Qed.

(** ** Key dispatch while enabled *)

Lemma attitude_keydown_axis (w : Att.World) (running : bool) :
  Att.enabled w = true ->
  Att.handle_event (KEYDOWN K_w) (w, running) = (Att.adjust_pitch_up w, running) /\
  Att.handle_event (KEYDOWN K_s) (w, running) = (Att.adjust_pitch_down w, running) /\
  Att.handle_event (KEYDOWN K_a) (w, running) = (Att.adjust_roll_left w, running) /\
  Att.handle_event (KEYDOWN K_d) (w, running) = (Att.adjust_roll_right w, running) /\
  Att.handle_event (KEYDOWN K_UP) (w, running) = (Att.increase_thrust w, running) /\
  Att.handle_event (KEYDOWN K_DOWN) (w, running) = (Att.decrease_thrust w, running) /\
  Att.handle_event (KEYDOWN K_LEFT) (w, running) = (Att.yaw_left w, running) /\
  Att.handle_event (KEYDOWN K_RIGHT) (w, running) = (Att.yaw_right w, running).
Proof.
  intros He. unfold Att.handle_event, Att.on_keydown. rewrite He.
  repeat split.
Qed.

Lemma velocity_keydown_axis (w : Vel.World) (running : bool) :
  Vel.enabled w = true ->
  Vel.handle_event (KEYDOWN K_w) (w, running) = (Vel.move_forward w, running) /\
  Vel.handle_event (KEYDOWN K_s) (w, running) = (Vel.move_backward w, running) /\
  Vel.handle_event (KEYDOWN K_a) (w, running) = (Vel.move_left w, running) /\
  Vel.handle_event (KEYDOWN K_d) (w, running) = (Vel.move_right w, running) /\
  Vel.handle_event (KEYDOWN K_UP) (w, running) = (Vel.ascend w, running) /\
  Vel.handle_event (KEYDOWN K_DOWN) (w, running) = (Vel.descend w, running) /\
  Vel.handle_event (KEYDOWN K_LEFT) (w, running) = (Vel.yaw_left w, running) /\
  Vel.handle_event (KEYDOWN K_RIGHT) (w, running) = (Vel.yaw_right w, running).
Proof.
  intros He. unfold Vel.handle_event, Vel.on_keydown. rewrite He.
  repeat split.
Qed.

(** ** Mode toggle *)

(** C8.  In both senders the Mode key negates [INCREMENTAL_MODE] and
    leaves the four axis values, [enabled], [running] and the socket
    exactly as they were. *)
Theorem C8_toggle_mode_changes_only_the_law :
  (forall (w : Att.World) (running : bool),
      Att.handle_event (KEYDOWN K_m) (w, running) = (Att.toggle_mode w, running) /\
      Att.toggle_mode w
        = Att.mkWorld (Att.roll w) (Att.pitch w) (Att.yaw w) (Att.thrust w)
                      (Att.enabled w) (negb (Att.INCREMENTAL_MODE w)) (Att.sock w))
  /\
  (forall (w : Vel.World) (running : bool),
      Vel.handle_event (KEYDOWN K_m) (w, running) = (Vel.toggle_mode w, running) /\
      Vel.toggle_mode w
        = Vel.mkWorld (Vel.velocity_x w) (Vel.velocity_y w) (Vel.velocity_z w)
                      (Vel.yaw_rate w) (Vel.enabled w)
                      (negb (Vel.INCREMENTAL_MODE w)) (Vel.sock w)).
Proof.
  split; intros w running; split; try reflexivity.
  - unfold Att.handle_event, Att.on_keydown.
    destruct (Att.enabled (Att.toggle_mode w)); reflexivity.
  - unfold Vel.handle_event, Vel.on_keydown.
    destruct (Vel.enabled (Vel.toggle_mode w)); reflexivity.
Qed.

(** ** Thrust release in the attitude sender *)

(** C10.  In the attitude sender [reset_thrust] returns the state it is
    given, and so do its guarded button form and the [KEYUP] handling of
    both thrust keys, whatever the control law. *)
Theorem C10_thrust_release_is_noop :
  forall (w : Att.World) (running : bool),
    Att.reset_thrust w = w /\
    Att.check_and_reset Att.reset_thrust w = w /\
    Att.handle_event (KEYUP K_UP) (w, running) = (w, running) /\
    Att.handle_event (KEYUP K_DOWN) (w, running) = (w, running).
Proof.
  intros w running. unfold Att.handle_event, Att.on_keyup, Att.check_and_reset.
  destruct (Att.INCREMENTAL_MODE w); repeat split.
Qed.

(** ** Direction of the roll and pitch handlers of the attitude sender *)

(** C9.  Under the instant-reset law both roll handlers add
    [ROLL_PITCH_STEP] to [roll]; under the incremental law both pitch
    handlers subtract [ROLL_PITCH_STEP] from [pitch]. *)
Theorem C9_opposing_inputs_same_direction :
  forall (w1 w2 : Att.World),
    Att.INCREMENTAL_MODE w1 = false ->
    Att.INCREMENTAL_MODE w2 = true ->
    (Att.roll (Att.adjust_roll_left w1) == Att.roll w1 + Att.ROLL_PITCH_STEP /\
     Att.roll (Att.adjust_roll_right w1) == Att.roll w1 + Att.ROLL_PITCH_STEP) /\
    (Att.pitch (Att.adjust_pitch_up w2) == Att.pitch w2 - Att.ROLL_PITCH_STEP /\
     Att.pitch (Att.adjust_pitch_down w2) == Att.pitch w2 - Att.ROLL_PITCH_STEP).
Proof.
  intros w1 w2 H1 H2.
  unfold Att.adjust_roll_left, Att.adjust_roll_right,
         Att.adjust_pitch_up, Att.adjust_pitch_down.
  rewrite H1, H2. cbn [Att.roll Att.pitch Att.set_roll Att.set_pitch].
  repeat split; ring.
Qed.

Lemma C9_opposing_inputs_same_direction_witness :
  (Att.roll (Att.adjust_roll_left Att.initial) == Att.roll Att.initial + Att.ROLL_PITCH_STEP /\
   Att.roll (Att.adjust_roll_right Att.initial) == Att.roll Att.initial + Att.ROLL_PITCH_STEP) /\
  (Att.pitch (Att.adjust_pitch_up (Att.toggle_mode Att.initial))
     == Att.pitch (Att.toggle_mode Att.initial) - Att.ROLL_PITCH_STEP /\
   Att.pitch (Att.adjust_pitch_down (Att.toggle_mode Att.initial))
     == Att.pitch (Att.toggle_mode Att.initial) - Att.ROLL_PITCH_STEP).
Proof.
  apply (C9_opposing_inputs_same_direction Att.initial (Att.toggle_mode Att.initial));
    reflexivity.
Defined.

(** ** Axis events while disabled *)

(** C4, as stated, fails for release events: in the attitude sender,
    after Enable, a pitch press and Disable, the state is disabled with
    [pitch = 2]; the release of the pitch key then changes [pitch]. *)
Lemma C4_release_while_disabled_counterexample :
  let w := fst (Att.handle_events [KEYDOWN K_e; KEYDOWN K_w; KEYDOWN K_c]
                                  (Att.initial, true)) in
  Att.enabled w = false /\
  ~ (Att.pitch (fst (Att.handle_event (KEYUP K_w) (w, true))) == Att.pitch w).
Proof.
  cbn. split; [reflexivity | intros H; discriminate H].
Qed.

(** C4 (amended).  While [enabled] is false, a press of any of the eight
    axis keys, and any action wrapped by [check_enabled], returns the
    state unchanged.  Release handling does not read [enabled]: it
    commutes with any assignment to [enabled], and under the incremental
    law it returns the state unchanged. *)
Theorem C4_axis_press_ignored_while_disabled :
  forall (wa : Att.World) (wv : Vel.World) (running : bool) (key : Key),
    Att.enabled wa = false ->
    Vel.enabled wv = false ->
    In key axis_keys ->
    (Att.handle_event (KEYDOWN key) (wa, running) = (wa, running) /\
     (forall act, Att.check_enabled act wa = wa) /\
     (forall b, Att.on_keyup key (Att.set_enabled b wa)
                = Att.set_enabled b (Att.on_keyup key wa)) /\
     (Att.INCREMENTAL_MODE wa = true ->
      Att.handle_event (KEYUP key) (wa, running) = (wa, running)))
    /\
    (Vel.handle_event (KEYDOWN key) (wv, running) = (wv, running) /\
     (forall act, Vel.check_enabled act wv = wv) /\
     (forall b, Vel.on_keyup key (Vel.set_enabled b wv)
                = Vel.set_enabled b (Vel.on_keyup key wv)) /\
     (Vel.INCREMENTAL_MODE wv = true ->
      Vel.handle_event (KEYUP key) (wv, running) = (wv, running))).
Proof.
  intros wa wv running key Ha Hv Hkey.
  split.
  - repeat split.
    + unfold Att.handle_event, Att.on_keydown.
      simpl in Hkey.
      repeat (destruct Hkey as [<- | Hkey]; [rewrite Ha; reflexivity | ]).
      contradiction.
    + intros act. unfold Att.check_enabled. rewrite Ha. reflexivity.
    + intros b. unfold Att.on_keyup.
      destruct wa as [r p y t e [|] s]; destruct key; reflexivity.
    + intros Hinc. unfold Att.handle_event, Att.on_keyup.
      rewrite Hinc. reflexivity.
  - repeat split.
    + unfold Vel.handle_event, Vel.on_keydown.
      simpl in Hkey.
      repeat (destruct Hkey as [<- | Hkey]; [rewrite Hv; reflexivity | ]).
      contradiction.
    + intros act. unfold Vel.check_enabled. rewrite Hv. reflexivity.
    + intros b. unfold Vel.on_keyup.
      destruct wv as [x y z yr e [|] s]; destruct key; reflexivity.
    + intros Hinc. unfold Vel.handle_event, Vel.on_keyup.
      rewrite Hinc. reflexivity.
Qed.

Lemma C4_axis_press_ignored_while_disabled_witness :
  Att.handle_event (KEYDOWN K_w) (Att.initial, true) = (Att.initial, true) /\
  Vel.handle_event (KEYDOWN K_w) (Vel.initial, true) = (Vel.initial, true).
Proof.
  destruct (C4_axis_press_ignored_while_disabled
              Att.initial Vel.initial true K_w) as [[Ha _] [Hv _]].
  - reflexivity.
  - reflexivity.
  - simpl. left. reflexivity.
  - split; assumption.
Defined.

(** ** Instant-reset law *)

(** C2, as stated, fails on the thrust axis of the attitude sender:
    under the instant-reset law, enabled and at neutral thrust, a thrust
    press followed by its release leaves [thrust] at 0.52, and a second
    press moves it further to 0.54. *)
Lemma C2_thrust_not_self_centring_counterexample :
  let w0 := Att.enable_control Att.initial in
  let w1 := fst (Att.handle_events [KEYDOWN K_UP; KEYUP K_UP] (w0, true)) in
  let w2 := fst (Att.handle_events [KEYDOWN K_UP; KEYUP K_UP] (w1, true)) in
  Att.INCREMENTAL_MODE w0 = false /\
  Att.thrust w0 == 1 # 2 /\
  ~ (Att.thrust w1 == 1 # 2) /\
  Att.thrust w1 == 13 # 25 /\
  Att.thrust w2 == 27 # 50.
Proof.
  vm_compute. repeat split; try reflexivity. intros H; discriminate H.
Qed.

(** C2 (amended).  Under the instant-reset law and while enabled:
    in the velocity sender every axis press assigns its axis the fixed
    value [+-DEFAULT_SPEED] or [+-YAW_RATE_STEP], whatever the previous
    value, and the matching release assigns 0; in the attitude sender
    the release of a roll, pitch or yaw key assigns 0 to that axis, a
    thrust press moves [thrust] one [THRUST_STEP] from its current value
    (clamped by [min]/[max]) and a thrust release changes nothing. *)
Theorem C2_instant_reset_law :
  forall (wv : Vel.World) (wa : Att.World) (running : bool),
    Vel.INCREMENTAL_MODE wv = false ->
    Vel.enabled wv = true ->
    Att.INCREMENTAL_MODE wa = false ->
    Att.enabled wa = true ->
    (Vel.handle_event (KEYDOWN K_w) (wv, running)
       = (Vel.set_velocity_x Vel.DEFAULT_SPEED wv, running) /\
     Vel.handle_event (KEYDOWN K_s) (wv, running)
       = (Vel.set_velocity_x (- Vel.DEFAULT_SPEED) wv, running) /\
     Vel.handle_event (KEYDOWN K_a) (wv, running)
       = (Vel.set_velocity_y (- Vel.DEFAULT_SPEED) wv, running) /\
     Vel.handle_event (KEYDOWN K_d) (wv, running)
       = (Vel.set_velocity_y Vel.DEFAULT_SPEED wv, running) /\
     Vel.handle_event (KEYDOWN K_UP) (wv, running)
       = (Vel.set_velocity_z (- Vel.DEFAULT_SPEED) wv, running) /\
     Vel.handle_event (KEYDOWN K_DOWN) (wv, running)
       = (Vel.set_velocity_z Vel.DEFAULT_SPEED wv, running) /\
     Vel.handle_event (KEYDOWN K_LEFT) (wv, running)
       = (Vel.set_yaw_rate (- Vel.YAW_RATE_STEP) wv, running) /\
     Vel.handle_event (KEYDOWN K_RIGHT) (wv, running)
       = (Vel.set_yaw_rate Vel.YAW_RATE_STEP wv, running))
    /\
    (Vel.handle_event (KEYUP K_w) (wv, running) = (Vel.set_velocity_x 0 wv, running) /\
     Vel.handle_event (KEYUP K_s) (wv, running) = (Vel.set_velocity_x 0 wv, running) /\
     Vel.handle_event (KEYUP K_a) (wv, running) = (Vel.set_velocity_y 0 wv, running) /\
     Vel.handle_event (KEYUP K_d) (wv, running) = (Vel.set_velocity_y 0 wv, running) /\
     Vel.handle_event (KEYUP K_UP) (wv, running) = (Vel.set_velocity_z 0 wv, running) /\
     Vel.handle_event (KEYUP K_DOWN) (wv, running) = (Vel.set_velocity_z 0 wv, running) /\
     Vel.handle_event (KEYUP K_LEFT) (wv, running) = (Vel.set_yaw_rate 0 wv, running) /\
     Vel.handle_event (KEYUP K_RIGHT) (wv, running) = (Vel.set_yaw_rate 0 wv, running))
    /\
    (Att.handle_event (KEYUP K_w) (wa, running) = (Att.set_pitch 0 wa, running) /\
     Att.handle_event (KEYUP K_s) (wa, running) = (Att.set_pitch 0 wa, running) /\
     Att.handle_event (KEYUP K_a) (wa, running) = (Att.set_roll 0 wa, running) /\
     Att.handle_event (KEYUP K_d) (wa, running) = (Att.set_roll 0 wa, running) /\
     Att.handle_event (KEYUP K_LEFT) (wa, running) = (Att.set_yaw 0 wa, running) /\
     Att.handle_event (KEYUP K_RIGHT) (wa, running) = (Att.set_yaw 0 wa, running))
    /\
    (Att.handle_event (KEYDOWN K_UP) (wa, running)
       = (Att.set_thrust (py_min (Att.thrust wa + Att.THRUST_STEP) 1) wa, running) /\
     Att.handle_event (KEYDOWN K_DOWN) (wa, running)
       = (Att.set_thrust (py_max (Att.thrust wa - Att.THRUST_STEP) 0) wa, running) /\
     Att.handle_event (KEYUP K_UP) (wa, running) = (wa, running) /\
     Att.handle_event (KEYUP K_DOWN) (wa, running) = (wa, running)).
Proof.
  intros wv wa running Hvi Hve Hai Hae.
  repeat split.
  all: try (unfold Vel.handle_event, Vel.on_keydown, Vel.on_keyup,
              Vel.move_forward, Vel.move_backward, Vel.move_left, Vel.move_right,
              Vel.ascend, Vel.descend, Vel.yaw_left, Vel.yaw_right,
              Vel.reset_velocity_x, Vel.reset_velocity_y, Vel.reset_velocity_z,
              Vel.reset_yaw_rate;
            rewrite ?Hve, ?Hvi; reflexivity).
  all: unfold Att.handle_event, Att.on_keydown, Att.on_keyup,
         Att.reset_pitch, Att.reset_roll, Att.reset_yaw, Att.reset_thrust,
         Att.increase_thrust, Att.decrease_thrust;
       rewrite ?Hae, ?Hai; reflexivity.
Qed.

Lemma C2_instant_reset_law_witness :
  Vel.handle_event (KEYDOWN K_w) (Vel.enable_control Vel.initial, true)
    = (Vel.set_velocity_x Vel.DEFAULT_SPEED (Vel.enable_control Vel.initial), true) /\
  Att.handle_event (KEYUP K_a) (Att.enable_control Att.initial, true)
    = (Att.set_roll 0 (Att.enable_control Att.initial), true).
Proof.
  destruct (C2_instant_reset_law (Vel.enable_control Vel.initial)
              (Att.enable_control Att.initial) true)
    as [[Hv _] [_ [[_ [_ [Ha _]]] _]]].
  - reflexivity.
  - reflexivity.
  - reflexivity.
  - reflexivity.
  - split; assumption.
Defined.

(** ** Incremental law *)

(** C3, failing input.  In the attitude sender, from the initial state,
    Enable, Mode (incremental law) and two yaw-right presses give
    [yaw = 15]: the second press moved [yaw] from 5 to 15, a change of
    10, not of [YAW_RATE_STEP].  A single yaw-left press instead gives
    [yaw = 5], and a second one leaves it at 5.  The velocity sender,
    on the same events, gives [yaw_rate] 10, -5 and -10. *)
Theorem C3_attitude_yaw_incremental_failing_input :
  let run_a es := fst (Att.handle_events es (Att.initial, true)) in
  let run_v es := fst (Vel.handle_events es (Vel.initial, true)) in
  (Att.INCREMENTAL_MODE (run_a [KEYDOWN K_e; KEYDOWN K_m]) = true /\
   Att.enabled (run_a [KEYDOWN K_e; KEYDOWN K_m]) = true) /\
  (Att.yaw (run_a [KEYDOWN K_e; KEYDOWN K_m; KEYDOWN K_RIGHT]) == 5 /\
   Att.yaw (run_a [KEYDOWN K_e; KEYDOWN K_m; KEYDOWN K_RIGHT; KEYDOWN K_RIGHT]) == 15 /\
   Att.yaw (run_a [KEYDOWN K_e; KEYDOWN K_m; KEYDOWN K_LEFT]) == 5 /\
   Att.yaw (run_a [KEYDOWN K_e; KEYDOWN K_m; KEYDOWN K_LEFT; KEYDOWN K_LEFT]) == 5) /\
  (Vel.yaw_rate (run_v [KEYDOWN K_e; KEYDOWN K_m; KEYDOWN K_RIGHT; KEYDOWN K_RIGHT]) == 10 /\
   Vel.yaw_rate (run_v [KEYDOWN K_e; KEYDOWN K_m; KEYDOWN K_LEFT]) == - (5) /\
   Vel.yaw_rate (run_v [KEYDOWN K_e; KEYDOWN K_m; KEYDOWN K_LEFT; KEYDOWN K_LEFT]) == - (10)).
Proof.
  vm_compute. repeat split.
Qed.

(** Outside the yaw handlers of the attitude sender the incremental law
    is the one the spec describes: every other press moves its axis by
    exactly one step from the running value, three pitch-up presses from
    neutral give [0 - 3 * ROLL_PITCH_STEP], and a release changes
    nothing. *)
Lemma incremental_law_outside_attitude_yaw
      (wa : Att.World) (wv : Vel.World) (running : bool) (key : Key) :
  Att.INCREMENTAL_MODE wa = true ->
  Vel.INCREMENTAL_MODE wv = true ->
  (Att.pitch (Att.adjust_pitch_up wa) == Att.pitch wa - Att.ROLL_PITCH_STEP /\
   Att.pitch (Att.adjust_pitch_down wa) == Att.pitch wa - Att.ROLL_PITCH_STEP /\
   Att.roll (Att.adjust_roll_left wa) == Att.roll wa - Att.ROLL_PITCH_STEP /\
   Att.roll (Att.adjust_roll_right wa) == Att.roll wa + Att.ROLL_PITCH_STEP /\
   Att.pitch (Att.adjust_pitch_up (Att.adjust_pitch_up (Att.adjust_pitch_up
                (Att.set_pitch 0 wa)))) == 0 - 3 * Att.ROLL_PITCH_STEP) /\
  (Vel.velocity_x (Vel.move_forward wv) == Vel.velocity_x wv + Vel.DEFAULT_SPEED /\
   Vel.velocity_x (Vel.move_backward wv) == Vel.velocity_x wv - Vel.DEFAULT_SPEED /\
   Vel.velocity_y (Vel.move_left wv) == Vel.velocity_y wv - Vel.DEFAULT_SPEED /\
   Vel.velocity_y (Vel.move_right wv) == Vel.velocity_y wv + Vel.DEFAULT_SPEED /\
   Vel.velocity_z (Vel.ascend wv) == Vel.velocity_z wv - Vel.DEFAULT_SPEED /\
   Vel.velocity_z (Vel.descend wv) == Vel.velocity_z wv + Vel.DEFAULT_SPEED /\
   Vel.yaw_rate (Vel.yaw_left wv) == Vel.yaw_rate wv - Vel.YAW_RATE_STEP /\
   Vel.yaw_rate (Vel.yaw_right wv) == Vel.yaw_rate wv + Vel.YAW_RATE_STEP) /\
  (Att.handle_event (KEYUP key) (wa, running) = (wa, running) /\
   Vel.handle_event (KEYUP key) (wv, running) = (wv, running) /\
   release_all Att.buttons wa = wa /\
   release_all Vel.buttons wv = wv).
Proof.
  intros Ha Hv. split; [| split].
  - unfold Att.adjust_pitch_up, Att.adjust_pitch_down, Att.adjust_roll_left,
           Att.adjust_roll_right, Att.set_pitch, Att.set_roll.
    cbn [Att.pitch Att.roll Att.INCREMENTAL_MODE]. rewrite Ha.
    unfold Att.ROLL_PITCH_STEP. repeat split; ring.
  - unfold Vel.move_forward, Vel.move_backward, Vel.move_left, Vel.move_right,
           Vel.ascend, Vel.descend, Vel.yaw_left, Vel.yaw_right.
    rewrite Hv. cbn. repeat split; reflexivity.
  - unfold Att.handle_event, Att.on_keyup, Vel.handle_event, Vel.on_keyup.
    rewrite Ha, Hv. cbn [negb].
    repeat split.
    + unfold Att.buttons, release_all, release, Att.check_and_reset.
      cbn [release_action]. repeat (rewrite Ha; cbn [negb]). reflexivity.
    + unfold Vel.buttons, release_all, release, Vel.check_and_reset.
      cbn [release_action]. repeat (rewrite Hv; cbn [negb]). reflexivity.
Qed.

(** The loop iteration that handles the Quit key while enabled sends
    the zero packet and then, since [enabled] is still set, the live
    axis values. *)
Lemma attitude_quit_iteration_while_enabled (w : Att.World) (running : bool) :
  Att.enabled w = true ->
  Att.sock (fst (Att.iteration [KEYDOWN K_q] (w, running)))
    = Att.sock w ++ [Att.attitude_packet 0 0 0 0;
                     Att.attitude_packet (Att.roll w) (Att.pitch w)
                                         (Att.yaw w) (Att.thrust w)] /\
  snd (Att.iteration [KEYDOWN K_q] (w, running)) = false.
Proof.
  intros He. unfold Att.iteration, Att.handle_events. cbn [fold_left].
  rewrite attitude_keydown_q.
  cbn [Att.enabled Att.send_attitude Att.sendto]. rewrite He.
  cbn [fst snd Att.sock Att.roll Att.pitch Att.yaw Att.thrust
       Att.send_attitude Att.sendto].
  rewrite <- app_assoc. split; reflexivity.
Qed.

(** The spec's scenario: from the initial state, Enable and a yaw-right
    press in one iteration, the release in the next; the two packets
    sent carry yaw 5 and yaw 0, both with [enable_flag = true]. *)
Lemma attitude_scenario_yaw_right :
  Att.sock (Att.main [[KEYDOWN K_e; KEYDOWN K_RIGHT]; [KEYUP K_RIGHT]])
    = [Att.attitude_packet 0 0 5 (1 # 2); Att.attitude_packet 0 0 0 (1 # 2)].
Proof. vm_compute. reflexivity. Qed.

Lemma velocity_scenario_yaw_right :
  Vel.sock (Vel.main [[KEYDOWN K_e; KEYDOWN K_RIGHT]; [KEYUP K_RIGHT]])
    = [Vel.velocity_body_packet 0 0 0 5; Vel.velocity_body_packet 0 0 0 0].
Proof. vm_compute. reflexivity. Qed.

(** ** Mouse clicks

    The rectangles of the twelve buttons are pairwise disjoint, so a
    click inside one of them runs that button's action and no other. *)

Section ClickOne.

Context {W : Type}.

Lemma rect_disjoint_miss (b1 b2 : Button W) (mouse_pos : Z * Z) :
  rect_disjoint b1 b2 = true ->
  is_clicked b1 mouse_pos = true -> is_clicked b2 mouse_pos = false.
Proof.
  destruct mouse_pos as [x y]. unfold rect_disjoint, is_clicked.
  intros Hd Hc.
  apply andb_prop in Hc. destruct Hc as [Hx Hy].
  apply andb_prop in Hx. destruct Hx as [Hx1 Hx2].
  apply andb_prop in Hy. destruct Hy as [Hy1 Hy2].
  apply Z.leb_le in Hx1, Hx2, Hy1, Hy2.
  apply orb_prop in Hd. destruct Hd as [Hd | Hd];
    [apply orb_prop in Hd; destruct Hd as [Hd | Hd];
     [apply orb_prop in Hd; destruct Hd as [Hd | Hd] |] |];
    apply Z.ltb_lt in Hd.
  - apply andb_false_intro1, andb_false_intro1, Z.leb_gt. lia.
  - apply andb_false_intro1, andb_false_intro2, Z.leb_gt. lia.
  - apply andb_false_intro2, andb_false_intro1, Z.leb_gt. lia.
  - apply andb_false_intro2, andb_false_intro2, Z.leb_gt. lia.
Qed.

Lemma click_all_miss (bs : list (Button W)) (mouse_pos : Z * Z) (w : W) :
  Forall (fun b => is_clicked b mouse_pos = false) bs ->
  click_all bs mouse_pos w = w.
Proof.
  induction 1 as [| b bs Hb _ IH]; cbn [click_all].
  - reflexivity.
  - rewrite Hb. exact IH.
Qed.

Lemma click_all_hit (before after : list (Button W)) (b : Button W)
      (mouse_pos : Z * Z) (w : W) :
  Forall (fun b' => rect_disjoint b b' = true) (before ++ after) ->
  is_clicked b mouse_pos = true ->
  click_all (before ++ b :: after) mouse_pos w = action b w.
Proof.
  intros Hd Hc. apply Forall_app in Hd. destruct Hd as [Hb Ha].
  assert (miss : forall l, Forall (fun b' => rect_disjoint b b' = true) l ->
                           Forall (fun b' => is_clicked b' mouse_pos = false) l).
  { intros l Hl. eapply Forall_impl; [| exact Hl].
    intros b' Hb'. exact (rect_disjoint_miss b b' mouse_pos Hb' Hc). }
  revert w. induction before as [| b0 before IH]; intros w; cbn [app click_all].
  - rewrite Hc. apply click_all_miss, miss, Ha.
  - inversion Hb as [| ? ? Hb0 Hb']; subst.
    rewrite (rect_disjoint_miss b b0 mouse_pos Hb0 Hc).
    apply IH, Hb'.
Qed.

End ClickOne.

(** A click inside the Disable or the Mode rectangle is the Disable or
    the ToggleMode event. *)
Lemma attitude_click_disable_mode (mouse_pos : Z * Z) (w : Att.World) :
  (is_clicked (mkButton "Disable" (50, 220)%Z (100, 50)%Z Att.disable_control None)
              mouse_pos = true ->
   click_all Att.buttons mouse_pos w = Att.disable_control w) /\
  (is_clicked (mkButton "Mode" (50, 360)%Z (100, 50)%Z Att.toggle_mode None)
              mouse_pos = true ->
   click_all Att.buttons mouse_pos w = Att.toggle_mode w).
Proof.
  split; intros Hc.
  - refine (click_all_hit (firstn 1 Att.buttons) (skipn 2 Att.buttons)
                            (mkButton "Disable" (50, 220)%Z (100, 50)%Z Att.disable_control None)
                            mouse_pos w _ Hc).
    cbn [firstn skipn Att.buttons app].
    repeat (apply Forall_cons; [reflexivity |]). apply Forall_nil.
  - refine (click_all_hit (firstn 3 Att.buttons) (skipn 4 Att.buttons)
                            (mkButton "Mode" (50, 360)%Z (100, 50)%Z Att.toggle_mode None)
                            mouse_pos w _ Hc).
    cbn [firstn skipn Att.buttons app].
    repeat (apply Forall_cons; [reflexivity |]). apply Forall_nil.
Qed.

Lemma velocity_click_disable_mode (mouse_pos : Z * Z) (w : Vel.World) :
  (is_clicked (mkButton "Disable" (50, 220)%Z (100, 50)%Z Vel.disable_control None)
              mouse_pos = true ->
   click_all Vel.buttons mouse_pos w = Vel.disable_control w) /\
  (is_clicked (mkButton "Mode" (50, 360)%Z (100, 50)%Z Vel.toggle_mode None)
              mouse_pos = true ->
   click_all Vel.buttons mouse_pos w = Vel.toggle_mode w).
Proof.
  split; intros Hc.
  - refine (click_all_hit (firstn 1 Vel.buttons) (skipn 2 Vel.buttons)
                            (mkButton "Disable" (50, 220)%Z (100, 50)%Z Vel.disable_control None)
                            mouse_pos w _ Hc).
    cbn [firstn skipn Vel.buttons app].
    repeat (apply Forall_cons; [reflexivity |]). apply Forall_nil.
  - refine (click_all_hit (firstn 3 Vel.buttons) (skipn 4 Vel.buttons)
                            (mkButton "Mode" (50, 360)%Z (100, 50)%Z Vel.toggle_mode None)
                            mouse_pos w _ Hc).
    cbn [firstn skipn Vel.buttons app].
    repeat (apply Forall_cons; [reflexivity |]). apply Forall_nil.
Qed.

(** ** Invariants of a run *)

Section ButtonInvariant.

Context {W : Type} (P : W -> Prop).

Lemma click_all_preserves (bs : list (Button W)) :
  Forall (fun b => forall w, P w -> P (action b w)) bs ->
  forall mouse_pos w, P w -> P (click_all bs mouse_pos w).
Proof.
  induction 1 as [| b bs Hb _ IH]; intros mouse_pos w Hw; simpl.
  - exact Hw.
  - apply IH. destruct (is_clicked b mouse_pos); [apply Hb |]; exact Hw.
Qed.

Lemma release_all_preserves (bs : list (Button W)) :
  Forall (fun b => forall w, P w -> P (release b w)) bs ->
  forall w, P w -> P (release_all bs w).
Proof.
  induction 1 as [| b bs Hb _ IH]; intros w Hw; simpl.
  - exact Hw.
  - apply IH, Hb, Hw.
Qed.

End ButtonInvariant.

Section AttitudeInvariant.

Variable P : Att.World -> Prop.
Hypothesis P_event :
  forall e w running, P w -> P (fst (Att.handle_event e (w, running))).
Hypothesis P_send :
  forall r p y t w, P w -> P (Att.send_attitude r p y t w).

Lemma attitude_handle_events_invariant (es : list Event) :
  forall st, P (fst st) -> P (fst (Att.handle_events es st)).
Proof.
  unfold Att.handle_events.
  induction es as [| e es IH]; intros [w running] Hw; cbn [fold_left].
  - exact Hw.
  - apply IH. apply (P_event e w running Hw).
Qed.

Lemma attitude_iteration_invariant (es : list Event) :
  forall st, P (fst st) -> P (fst (Att.iteration es st)).
Proof.
  intros st Hst. unfold Att.iteration.
  pose proof (attitude_handle_events_invariant es st Hst) as H.
  destruct (Att.handle_events es st) as [w running]. cbn [fst] in *.
  destruct (Att.enabled w); [apply P_send |]; exact H.
Qed.

Lemma attitude_main_loop_invariant (batches : list (list Event)) :
  forall st, P (fst st) -> P (fst (Att.main_loop batches st)).
Proof.
  induction batches as [| es rest IH]; intros st Hst; cbn [Att.main_loop].
  - exact Hst.
  - destruct (snd st); [| exact Hst].
    apply IH, attitude_iteration_invariant, Hst.
Qed.

End AttitudeInvariant.

Section VelocityInvariant.

Variable P : Vel.World -> Prop.
Hypothesis P_event :
  forall e w running, P w -> P (fst (Vel.handle_event e (w, running))).
Hypothesis P_send :
  forall vx vy vz yr w, P w -> P (Vel.send_velocity_body vx vy vz yr w).

Lemma velocity_handle_events_invariant (es : list Event) :
  forall st, P (fst st) -> P (fst (Vel.handle_events es st)).
Proof.
  unfold Vel.handle_events.
  induction es as [| e es IH]; intros [w running] Hw; cbn [fold_left].
  - exact Hw.
  - apply IH. apply (P_event e w running Hw).
Qed.

Lemma velocity_iteration_invariant (es : list Event) :
  forall st, P (fst st) -> P (fst (Vel.iteration es st)).
Proof.
  intros st Hst. unfold Vel.iteration.
  pose proof (velocity_handle_events_invariant es st Hst) as H.
  destruct (Vel.handle_events es st) as [w running]. cbn [fst] in *.
  destruct (Vel.enabled w); [apply P_send |]; exact H.
Qed.

Lemma velocity_main_loop_invariant (batches : list (list Event)) :
  forall st, P (fst st) -> P (fst (Vel.main_loop batches st)).
Proof.
  induction batches as [| es rest IH]; intros st Hst; cbn [Vel.main_loop].
  - exact Hst.
  - destruct (snd st); [| exact Hst].
    apply IH, velocity_iteration_invariant, Hst.
Qed.

End VelocityInvariant.

(** *** Thrust range *)

Lemma py_min_spec (a b : Q) :
  (b < a /\ py_min a b = b) \/ (a <= b /\ py_min a b = a).
Proof.
  unfold py_min, Qlt_bool.
  destruct (Qle_bool a b) eqn:E; simpl.
  - right. split; [apply Qle_bool_iff, E | reflexivity].
  - left. split; [| reflexivity].
    apply Qnot_le_lt. intros H. apply Qle_bool_iff in H. congruence.
Qed.

Lemma py_max_spec (a b : Q) :
  (a < b /\ py_max a b = b) \/ (b <= a /\ py_max a b = a).
Proof.
  unfold py_max, Qlt_bool.
  destruct (Qle_bool b a) eqn:E; simpl.
  - right. split; [apply Qle_bool_iff, E | reflexivity].
  - left. split; [| reflexivity].
    apply Qnot_le_lt. intros H. apply Qle_bool_iff in H. congruence.
Qed.

Lemma increase_thrust_in_range (w : Att.World) :
  thrust_in_range w -> thrust_in_range (Att.increase_thrust w).
Proof.
  unfold thrust_in_range, Att.increase_thrust, Att.THRUST_STEP. simpl.
  intros [Hlo Hhi].
  destruct (py_min_spec (Att.thrust w + (1 # 50)) 1) as [[H ->] | [H ->]]; lra.
Qed.

Lemma decrease_thrust_in_range (w : Att.World) :
  thrust_in_range w -> thrust_in_range (Att.decrease_thrust w).
Proof.
  unfold thrust_in_range, Att.decrease_thrust, Att.THRUST_STEP. simpl.
  intros [Hlo Hhi].
  destruct (py_max_spec (Att.thrust w - (1 # 50)) 0) as [[H ->] | [H ->]]; lra.
Qed.

Lemma reset_control_in_range (w : Att.World) :
  thrust_in_range (Att.reset_control w).
Proof. unfold thrust_in_range. simpl. lra. Qed.

(** Every handler other than the three above leaves [thrust] as it is. *)
Ltac thrust_untouched :=
  match goal with
  | H : thrust_in_range ?w |- thrust_in_range _ =>
      first [ exact H
            | apply increase_thrust_in_range, H
            | apply decrease_thrust_in_range, H
            | apply reset_control_in_range
            | destruct w; exact H ]
  end.

Lemma attitude_buttons_click_in_range :
  Forall (fun b => forall w, thrust_in_range w -> thrust_in_range (action b w))
         Att.buttons.
Proof.
  unfold Att.buttons.
  repeat apply Forall_cons; try apply Forall_nil;
    cbn [action]; intros w Hw; unfold Att.check_enabled;
    try destruct (Att.enabled w); thrust_untouched.
Qed.

Lemma attitude_buttons_release_in_range :
  Forall (fun b => forall w, thrust_in_range w -> thrust_in_range (release b w))
         Att.buttons.
Proof.
  unfold Att.buttons.
  repeat apply Forall_cons; try apply Forall_nil;
    unfold release; cbn [release_action]; intros w Hw;
    unfold Att.check_and_reset;
    try destruct (Att.INCREMENTAL_MODE w); cbn [negb]; thrust_untouched.
Qed.

Lemma attitude_handle_event_in_range (e : Event) (w : Att.World) (running : bool) :
  thrust_in_range w -> thrust_in_range (fst (Att.handle_event e (w, running))).
Proof.
  intros Hw. destruct e as [| key | key | mouse_pos | |];
    cbn [Att.handle_event fst].
  - exact Hw.
  - unfold Att.on_keydown.
    destruct key; cbn; destruct (Att.enabled w); cbn [fst]; thrust_untouched.
  - unfold Att.on_keyup.
    destruct key; destruct (Att.INCREMENTAL_MODE w); cbn [negb]; thrust_untouched.
  - apply click_all_preserves; [apply attitude_buttons_click_in_range | exact Hw].
  - apply release_all_preserves; [apply attitude_buttons_release_in_range | exact Hw].
  - exact Hw.
Qed.

(** C5.  The initial thrust 0.5 lies in [0, 1]; every event the attitude
    sender's loop handles keeps [thrust] in [0, 1]; hence after any run
    of [main], whatever the event batches, [0 <= thrust <= 1]. *)
Theorem C5_thrust_stays_in_unit_interval :
  thrust_in_range Att.initial /\
  (forall (e : Event) (w : Att.World) (running : bool),
      thrust_in_range w -> thrust_in_range (fst (Att.handle_event e (w, running)))) /\
  (forall (es : list Event) (w : Att.World) (running : bool),
      thrust_in_range w -> thrust_in_range (fst (Att.iteration es (w, running)))) /\
  (forall batches : list (list Event),
      0 <= Att.thrust (Att.main batches) /\ Att.thrust (Att.main batches) <= 1).
Proof.
  assert (Hinit : thrust_in_range Att.initial)
    by (unfold thrust_in_range; simpl; lra).
  assert (Hsend : forall r p y t w,
             thrust_in_range w -> thrust_in_range (Att.send_attitude r p y t w))
    by (intros r p y t w H; exact H).
  repeat split.
  - apply Hinit.
  - apply Hinit.
  - apply attitude_handle_event_in_range; assumption.
  - apply attitude_handle_event_in_range; assumption.
  - apply (attitude_iteration_invariant thrust_in_range
             attitude_handle_event_in_range Hsend es (w, running)); assumption.
  - apply (attitude_iteration_invariant thrust_in_range
             attitude_handle_event_in_range Hsend es (w, running)); assumption.
  - apply (attitude_main_loop_invariant thrust_in_range
             attitude_handle_event_in_range Hsend batches (Att.initial, true)), Hinit.
  - apply (attitude_main_loop_invariant thrust_in_range
             attitude_handle_event_in_range Hsend batches (Att.initial, true)), Hinit.
Qed.

Lemma C5_thrust_stays_in_unit_interval_witness :
  thrust_in_range
    (fst (Att.handle_event (KEYDOWN K_UP) (Att.mkWorld 0 0 0 1 true false [], true))).
Proof.
  apply (proj1 (proj2 C5_thrust_stays_in_unit_interval)).
  unfold thrust_in_range. cbn [Att.thrust]. lra.
Defined.

(** *** Mode purity *)

Lemma attitude_send_pure (r p y t : Q) (w : Att.World) :
  attitude_sock_pure w -> attitude_sock_pure (Att.send_attitude r p y t w).
Proof.
  unfold attitude_sock_pure. cbn [Att.sock Att.send_attitude Att.sendto].
  intros H. apply Forall_app. split; [exact H |].
  constructor; [| constructor]. repeat split.
Qed.

Lemma velocity_send_pure (vx vy vz yr : Q) (w : Vel.World) :
  velocity_sock_pure w -> velocity_sock_pure (Vel.send_velocity_body vx vy vz yr w).
Proof.
  unfold velocity_sock_pure. cbn [Vel.sock Vel.send_velocity_body Vel.sendto].
  intros H. apply Forall_app. split; [exact H |].
  constructor; [| constructor]. repeat split. exists yr. reflexivity.
Qed.

(** A handler either leaves the socket alone or sends one packet
    through [send_attitude] / [send_velocity_body]. *)
Ltac sock_pure :=
  match goal with
  | H : attitude_sock_pure ?w |- attitude_sock_pure _ =>
      first [ exact H
            | apply (attitude_send_pure 0 0 0 0 (Att.set_enabled false w)), H
            | apply (attitude_send_pure 0 0 0 0 w), H ]
  | H : velocity_sock_pure ?w |- velocity_sock_pure _ =>
      first [ exact H
            | apply (velocity_send_pure 0 0 0 0 (Vel.set_enabled false w)), H
            | apply (velocity_send_pure 0 0 0 0 w), H ]
  end.

Lemma attitude_handle_event_pure (e : Event) (w : Att.World) (running : bool) :
  attitude_sock_pure w -> attitude_sock_pure (fst (Att.handle_event e (w, running))).
Proof.
  intros Hw. destruct e as [| key | key | mouse_pos | |];
    cbn [Att.handle_event fst].
  - exact Hw.
  - unfold Att.on_keydown.
    destruct key; cbn; destruct (Att.enabled w); cbn [fst]; sock_pure.
  - unfold Att.on_keyup.
    destruct key; destruct (Att.INCREMENTAL_MODE w); cbn [negb]; sock_pure.
  - apply click_all_preserves; [| exact Hw].
    unfold Att.buttons. repeat apply Forall_cons; try apply Forall_nil;
      cbn [action]; intros w' Hw'; unfold Att.check_enabled;
      try destruct (Att.enabled w'); sock_pure.
  - apply release_all_preserves; [| exact Hw].
    unfold Att.buttons. repeat apply Forall_cons; try apply Forall_nil;
      unfold release; cbn [release_action]; intros w' Hw';
      unfold Att.check_and_reset;
      try destruct (Att.INCREMENTAL_MODE w'); cbn [negb]; sock_pure.
  - exact Hw.
Qed.

Lemma velocity_handle_event_pure (e : Event) (w : Vel.World) (running : bool) :
  velocity_sock_pure w -> velocity_sock_pure (fst (Vel.handle_event e (w, running))).
Proof.
  intros Hw. destruct e as [| key | key | mouse_pos | |];
    cbn [Vel.handle_event fst].
  - exact Hw.
  - unfold Vel.on_keydown.
    destruct key; cbn; destruct (Vel.enabled w); cbn [fst]; sock_pure.
  - unfold Vel.on_keyup.
    destruct key; destruct (Vel.INCREMENTAL_MODE w); cbn [negb]; sock_pure.
  - apply click_all_preserves; [| exact Hw].
    unfold Vel.buttons. repeat apply Forall_cons; try apply Forall_nil;
      cbn [action]; intros w' Hw'; unfold Vel.check_enabled;
      try destruct (Vel.enabled w'); sock_pure.
  - apply release_all_preserves; [| exact Hw].
    unfold Vel.buttons. repeat apply Forall_cons; try apply Forall_nil;
      unfold release; cbn [release_action]; intros w' Hw';
      unfold Vel.check_and_reset;
      try destruct (Vel.INCREMENTAL_MODE w'); cbn [negb]; sock_pure.
  - exact Hw.
Qed.

(** C6.  After any run of either [main], every packet handed to the
    socket carries the sender's mode tag and has all fields outside that
    mode's subset equal to zero. *)
Theorem C6_mode_purity :
  forall batches : list (list Event),
    Forall (fun p => mode p = ATTITUDE_CONTROL /\ mode_pure p)
           (Att.sock (Att.main batches)) /\
    Forall (fun p => mode p = VELOCITY_BODY /\ mode_pure p)
           (Vel.sock (Vel.main batches)).
Proof.
  intros batches. split.
  - apply (attitude_main_loop_invariant attitude_sock_pure
             attitude_handle_event_pure attitude_send_pure batches (Att.initial, true)).
    constructor.
  - apply (velocity_main_loop_invariant velocity_sock_pure
             velocity_handle_event_pure velocity_send_pure batches (Vel.initial, true)).
    constructor.
Qed.

(** ** Setpoint packet codec: round trip *)

Section CodecFacts.

Variable F : WireFormat.

Hypothesis encode_num_length : forall x, List.length (encode_num F x) = WIDTH F.
Hypothesis mode_tag_distinct :
  mode_tag F ATTITUDE_CONTROL <> mode_tag F VELOCITY_BODY.

Lemma take_num_encode (x : Q) (rest : list byte) :
  representable F x -> take_num F (encode_num F x ++ rest) = (x, rest).
Proof.
  intros Hx. unfold take_num.
  rewrite <- (encode_num_length x).
  rewrite firstn_app, skipn_app, Nat.sub_diag, firstn_all, skipn_all.
  cbn [firstn skipn app].
  rewrite app_nil_r, Hx. reflexivity.
Qed.

Lemma take_vec3_encode (a b c : Q) (rest : list byte) :
  representable F a -> representable F b -> representable F c ->
  take_vec3 F (encode_vec3 F (a, b, c) ++ rest) = ((a, b, c), rest).
Proof.
  intros Ha Hb Hc. unfold take_vec3, encode_vec3.
  rewrite <- !app_assoc.
  rewrite (take_num_encode a _ Ha), (take_num_encode b _ Hb),
          (take_num_encode c _ Hc).
  reflexivity.
Qed.

Lemma take_vec4_encode (a b c d : Q) (rest : list byte) :
  representable F a -> representable F b -> representable F c -> representable F d ->
  take_vec4 F (encode_vec4 F (a, b, c, d) ++ rest) = ((a, b, c, d), rest).
Proof.
  intros Ha Hb Hc Hd. unfold take_vec4, encode_vec4.
  rewrite <- !app_assoc.
  rewrite (take_num_encode a _ Ha), (take_num_encode b _ Hb),
          (take_num_encode c _ Hc), (take_num_encode d _ Hd).
  reflexivity.
Qed.

Lemma decode_mode_tag (m : SetpointMode) : decode_mode F (mode_tag F m) = Some m.
Proof.
  unfold decode_mode. destruct m.
  - rewrite (Byte.byte_dec_lb eq_refl). reflexivity.
  - destruct (Byte.eqb (mode_tag F VELOCITY_BODY) (mode_tag F ATTITUDE_CONTROL)) eqn:E.
    + apply Byte.byte_dec_bl in E. symmetry in E. contradiction.
    + rewrite (Byte.byte_dec_lb eq_refl). reflexivity.
Qed.

Lemma decode_encode_flag (b : bool) : decode_flag (encode_flag b) = b.
Proof. destruct b; reflexivity. Qed.

Lemma encode_length (p : ControlPacket) : List.length (encode F p) = PACKET_SIZE F.
Proof.
  destruct p as [m en yc [[px py] pz] [[vx vy] vz] [[ax ay] az]
                   [[[r pi] y] t] [[rr pr] yr]].
  unfold encode, encode_vec3, encode_vec4, PACKET_SIZE.
  cbn [mode enable_flag yaw_control_flag position velocity acceleration
       attitude attitude_rate List.length].
  rewrite !length_app, !encode_num_length. lia.
Qed.

End CodecFacts.

Lemma decode_wrong_length (F : WireFormat) (buf : list byte) :
  List.length buf <> PACKET_SIZE F -> decode F buf = MalformedPacket.
Proof.
  intros H. unfold decode.
  destruct (Nat.eqb_spec (List.length buf) (PACKET_SIZE F)); [contradiction | reflexivity].
Qed.

Lemma decode_unknown_tag (F : WireFormat) (tag en yc : byte) (body : list byte) :
  tag <> mode_tag F ATTITUDE_CONTROL ->
  tag <> mode_tag F VELOCITY_BODY ->
  decode F (tag :: en :: yc :: body) = MalformedPacket.
Proof.
  intros Ha Hv. unfold decode.
  destruct (negb _); [reflexivity |].
  unfold decode_mode.
  destruct (Byte.eqb tag (mode_tag F ATTITUDE_CONTROL)) eqn:Ea;
    [apply Byte.byte_dec_bl in Ea; contradiction |].
  destruct (Byte.eqb tag (mode_tag F VELOCITY_BODY)) eqn:Ev;
    [apply Byte.byte_dec_bl in Ev; contradiction |].
  reflexivity.
Qed.

(** C7.  For any wire format whose numeric representation has the fixed
    width it declares and whose two mode tags differ, and for every
    packet whose numbers are representable in it, [encode] yields a
    buffer of the constant length [PACKET_SIZE] and [decode] of that
    buffer is the packet itself. *)
Theorem C7_decode_encode_roundtrip :
  forall (F : WireFormat) (p : ControlPacket),
    (forall x, List.length (encode_num F x) = WIDTH F) ->
    mode_tag F ATTITUDE_CONTROL <> mode_tag F VELOCITY_BODY ->
    valid_packet F p ->
    List.length (encode F p) = PACKET_SIZE F /\
    decode F (encode F p) = Packet p.
Proof.
  intros F p Hlen Htag Hvalid.
  split; [apply encode_length, Hlen |].
  unfold decode. rewrite (encode_length F Hlen p), Nat.eqb_refl. cbn [negb].
  destruct p as [m en yc [[px py] pz] [[vx vy] vz] [[ax ay] az]
                   [[[r pi] y] t] [[rr pr] yr]].
  unfold valid_packet, numeric_fields in Hvalid.
  cbn [position velocity acceleration attitude attitude_rate] in Hvalid.
  repeat match goal with
         | H : Forall _ (_ :: _) |- _ => inversion H; subst; clear H
         end.
  unfold encode.
  cbn [mode enable_flag yaw_control_flag position velocity acceleration
       attitude attitude_rate].
  rewrite (decode_mode_tag F Htag m).
  rewrite !(take_vec3_encode F Hlen) by assumption.
  rewrite (take_vec4_encode F Hlen) by assumption.
  rewrite <- (app_nil_r (encode_vec3 F (rr, pr, yr))).
  rewrite (take_vec3_encode F Hlen) by assumption.
  rewrite !decode_encode_flag. reflexivity.
Qed.

Lemma C7_decode_encode_roundtrip_witness :
  List.length (encode hundredths_le32 (Att.attitude_packet 0 (- (2)) 5 (13 # 25)))
    = PACKET_SIZE hundredths_le32 /\
  decode hundredths_le32
         (encode hundredths_le32 (Att.attitude_packet 0 (- (2)) 5 (13 # 25)))
    = Packet (Att.attitude_packet 0 (- (2)) 5 (13 # 25)).
Proof.
  apply (C7_decode_encode_roundtrip hundredths_le32).
  - intros x. reflexivity.
  - discriminate.
  - unfold valid_packet.
    cbv [numeric_fields Att.attitude_packet position velocity acceleration
         attitude attitude_rate].
    repeat (apply Forall_cons; [unfold representable; vm_compute; reflexivity |]).
    apply Forall_nil.
Defined.

(** * Further properties of the two senders *)

(** ** Mouse handling *)

Section PairwiseDisjoint.

Context {W : Type}.

Lemma rect_disjoint_sym (b1 b2 : Button W) :
  rect_disjoint b1 b2 = rect_disjoint b2 b1.
Proof.
  unfold rect_disjoint.
  destruct (_ <? _)%Z, (_ <? _)%Z, (_ <? _)%Z, (_ <? _)%Z; reflexivity.
Qed.

Lemma pairwise_disjoint_split (before after : list (Button W)) (b : Button W) :
  pairwise_disjoint (before ++ b :: after) = true ->
  Forall (fun b' => rect_disjoint b b' = true) (before ++ after).
Proof.
  induction before as [| b0 before IH]; cbn [app pairwise_disjoint]; intros H;
    apply andb_prop in H; destruct H as [Hhead Htail].
  - apply Forall_forall. intros b' Hin.
    rewrite forallb_forall in Hhead. apply Hhead, Hin.
  - constructor.
    + rewrite forallb_forall in Hhead. rewrite rect_disjoint_sym.
      apply Hhead, in_or_app. right. left. reflexivity.
    + apply IH, Htail.
Qed.

Lemma click_all_one (bs : list (Button W)) (b : Button W)
      (mouse_pos : Z * Z) (w : W) :
  pairwise_disjoint bs = true -> In b bs -> is_clicked b mouse_pos = true ->
  click_all bs mouse_pos w = action b w.
Proof.
  intros Hd Hin Hc.
  destruct (in_split b bs Hin) as [before [after ->]].
  apply click_all_hit; [apply pairwise_disjoint_split, Hd | exact Hc].
Qed.

End PairwiseDisjoint.

(** X1.  The rectangles of the twelve buttons of either script are
    pairwise disjoint: a mouse press inside the rectangle of a button
    (borders included) runs the action of that button and of no other,
    and a mouse press outside every rectangle changes nothing. *)
Theorem X1_click_runs_exactly_one_action :
  forall (ba : Button Att.World) (bv : Button Vel.World)
         (pa pv : Z * Z) (wa : Att.World) (wv : Vel.World),
    In ba Att.buttons -> is_clicked ba pa = true ->
    In bv Vel.buttons -> is_clicked bv pv = true ->
    (click_all Att.buttons pa wa = action ba wa /\
     click_all Vel.buttons pv wv = action bv wv) /\
    (forall p, Forall (fun b => is_clicked b p = false) Att.buttons ->
               click_all Att.buttons p wa = wa) /\
    (forall p, Forall (fun b => is_clicked b p = false) Vel.buttons ->
               click_all Vel.buttons p wv = wv).
Proof.
  intros ba bv pa pv wa wv Hina Hca Hinv Hcv.
  repeat split.
  - apply click_all_one; [reflexivity | exact Hina | exact Hca].
  - apply click_all_one; [reflexivity | exact Hinv | exact Hcv].
  - intros p. apply click_all_miss.
  - intros p. apply click_all_miss.
Qed.

Lemma X1_click_runs_exactly_one_action_witness :
  click_all Att.buttons (650, 340)%Z (Att.enable_control Att.initial)
    = Att.adjust_pitch_up (Att.enable_control Att.initial) /\
  click_all Vel.buttons (275, 270)%Z (Vel.enable_control Vel.initial)
    = Vel.yaw_left (Vel.enable_control Vel.initial).
Proof.
  refine (proj1 (X1_click_runs_exactly_one_action
            (mkButton "Pitch Up" (600, 290)%Z (100, 50)%Z
               (Att.check_enabled Att.adjust_pitch_up)
               (Some (Att.check_and_reset Att.reset_pitch)))
            (mkButton "Yaw Left" (175, 220)%Z (100, 50)%Z
               (Vel.check_enabled Vel.yaw_left)
               (Some (Vel.check_and_reset Vel.reset_yaw_rate)))
            (650, 340)%Z (275, 270)%Z
            (Att.enable_control Att.initial) (Vel.enable_control Vel.initial)
            _ _ _ _)).
  - unfold Att.buttons. cbn [In]. do 4 right. left. reflexivity.
  - reflexivity.
  - unfold Vel.buttons. cbn [In]. do 10 right. left. reflexivity.
  - reflexivity.
Defined.

Lemma attitude_keydown_as_action (n : nat) (b : Button Att.World) (key : Key)
      (w : Att.World) (running : bool) :
  nth_error Att.buttons n = Some b -> nth_error button_keys n = Some key ->
  Att.handle_event (KEYDOWN key) (w, running) = (action b w, running).
Proof.
  intros Hb Hk.
  do 12 (destruct n as [| n];
         [cbn in Hb, Hk; injection Hb as <-; injection Hk as <-;
          cbn [action]; unfold Att.handle_event, Att.on_keydown, Att.check_enabled;
          cbn [Att.enabled Att.enable_control Att.disable_control Att.toggle_mode
               Att.reset_control Att.set_enabled Att.set_INCREMENTAL_MODE
               Att.send_attitude Att.sendto];
          destruct (Att.enabled w); reflexivity |]).
  destruct n; discriminate Hk.
Qed.

Lemma velocity_keydown_as_action (n : nat) (b : Button Vel.World) (key : Key)
      (w : Vel.World) (running : bool) :
  nth_error Vel.buttons n = Some b -> nth_error button_keys n = Some key ->
  Vel.handle_event (KEYDOWN key) (w, running) = (action b w, running).
Proof.
  intros Hb Hk.
  do 12 (destruct n as [| n];
         [cbn in Hb, Hk; injection Hb as <-; injection Hk as <-;
          cbn [action]; unfold Vel.handle_event, Vel.on_keydown, Vel.check_enabled;
          cbn [Vel.enabled Vel.enable_control Vel.disable_control Vel.toggle_mode
               Vel.reset_control Vel.set_enabled Vel.set_INCREMENTAL_MODE
               Vel.send_velocity_body Vel.sendto];
          destruct (Vel.enabled w); reflexivity |]).
  destruct n; discriminate Hk.
Qed.

(** X2.  Keyboard and mouse agree on presses: in both scripts, a mouse
    press inside the [n]-th button has exactly the effect of pressing
    the [n]-th key of [e c h m w s a d UP DOWN LEFT RIGHT], on the state,
    on the socket and on [running]. *)
Theorem X2_mouse_press_equals_key_press :
  forall (n : nat) (key : Key)
         (ba : Button Att.World) (bv : Button Vel.World) (pa pv : Z * Z)
         (wa : Att.World) (wv : Vel.World) (running : bool),
    nth_error button_keys n = Some key ->
    nth_error Att.buttons n = Some ba -> is_clicked ba pa = true ->
    nth_error Vel.buttons n = Some bv -> is_clicked bv pv = true ->
    Att.handle_event (MOUSEBUTTONDOWN pa) (wa, running)
      = Att.handle_event (KEYDOWN key) (wa, running) /\
    Vel.handle_event (MOUSEBUTTONDOWN pv) (wv, running)
      = Vel.handle_event (KEYDOWN key) (wv, running).
Proof.
  intros n key ba bv pa pv wa wv running Hk Hba Hca Hbv Hcv. split.
  - rewrite (attitude_keydown_as_action n ba key wa running Hba Hk).
    cbn [Att.handle_event]. f_equal.
    apply click_all_one; [reflexivity | eapply nth_error_In, Hba | exact Hca].
  - rewrite (velocity_keydown_as_action n bv key wv running Hbv Hk).
    cbn [Vel.handle_event]. f_equal.
    apply click_all_one; [reflexivity | eapply nth_error_In, Hbv | exact Hcv].
Qed.

Lemma X2_mouse_press_equals_key_press_witness :
  Att.handle_event (MOUSEBUTTONDOWN (100, 245)%Z) (Att.enable_control Att.initial, true)
    = Att.handle_event (KEYDOWN K_c) (Att.enable_control Att.initial, true) /\
  Vel.handle_event (MOUSEBUTTONDOWN (150, 270)%Z) (Vel.enable_control Vel.initial, true)
    = Vel.handle_event (KEYDOWN K_c) (Vel.enable_control Vel.initial, true).
Proof.
  refine (X2_mouse_press_equals_key_press 1 K_c
            (mkButton "Disable" (50, 220)%Z (100, 50)%Z Att.disable_control None)
            (mkButton "Disable" (50, 220)%Z (100, 50)%Z Vel.disable_control None)
            (100, 245)%Z (150, 270)%Z
            (Att.enable_control Att.initial) (Vel.enable_control Vel.initial) true
            _ _ _ _ _); reflexivity.
Defined.

(** X3.  A mouse release is not tied to the button that was pressed: it
    runs the release action of every button.  Under the instant-reset
    law it therefore recentres every axis at once (in the attitude
    sender all but [thrust], in the velocity sender all four, which is
    what Hold does); under the incremental law it changes nothing.  It
    never sends a packet and never touches [enabled] or [running]. *)
Theorem X3_mouse_release_recentres_all_axes :
  forall (wa : Att.World) (wv : Vel.World) (running : bool),
    Att.handle_event MOUSEBUTTONUP (wa, running)
      = (if Att.INCREMENTAL_MODE wa then wa
         else Att.mkWorld 0 0 0 (Att.thrust wa) (Att.enabled wa) false (Att.sock wa),
         running) /\
    Vel.handle_event MOUSEBUTTONUP (wv, running)
      = (if Vel.INCREMENTAL_MODE wv then wv else Vel.reset_control wv, running).
Proof.
  intros [r p y t e [|] s] [vx vy vz yr ev [|] sv] running; split; reflexivity.
Qed.

(** ** What is sent, and when *)

Lemma Forall_app_repeat {A : Type} (R : A -> Prop) (l : list A) (a : A) (n : nat) :
  Forall R l -> R a -> Forall R (l ++ repeat a n).
Proof.
  intros Hl Ha. apply Forall_app. split; [exact Hl |].
  apply Forall_forall. intros x Hx. apply repeat_spec in Hx. subst. exact Ha.
Qed.

(** Event handlers never send axis values: whatever an event appends to
    the socket is a run of zero packets (of length 0 or 1). *)
Lemma attitude_handle_event_sends_zeros (e : Event) (w : Att.World) (running : bool) :
  exists n, Att.sock (fst (Att.handle_event e (w, running)))
            = Att.sock w ++ repeat (Att.attitude_packet 0 0 0 0) n.
Proof.
  assert (keep : forall w' : Att.World,
             Att.sock w' = Att.sock w ->
             exists n, Att.sock w' = Att.sock w ++ repeat (Att.attitude_packet 0 0 0 0) n).
  { intros w' H. exists 0%nat. cbn [repeat]. rewrite app_nil_r. exact H. }
  destruct e as [| key | key | mouse_pos | |]; cbn [Att.handle_event fst].
  - apply keep. reflexivity.
  - unfold Att.on_keydown.
    destruct key; cbn; destruct (Att.enabled w); cbn [fst];
      first [ apply keep; reflexivity | exists 1%nat; reflexivity ].
  - unfold Att.on_keyup.
    destruct key; destruct (Att.INCREMENTAL_MODE w); cbn [negb];
      apply keep; reflexivity.
  - apply (click_all_preserves
             (fun w' => exists n, Att.sock w'
                                  = Att.sock w ++ repeat (Att.attitude_packet 0 0 0 0) n));
      [| apply keep; reflexivity].
    unfold Att.buttons. repeat apply Forall_cons; try apply Forall_nil;
      cbn [action]; intros w' [n Hn]; unfold Att.check_enabled;
      try destruct (Att.enabled w');
      first [ exists n; exact Hn
            | exists (S n);
              cbn [Att.disable_control Att.send_attitude Att.sendto Att.sock
                   Att.set_enabled];
              rewrite Hn, <- app_assoc, <- repeat_cons; reflexivity ].
  - apply (release_all_preserves
             (fun w' => exists n, Att.sock w'
                                  = Att.sock w ++ repeat (Att.attitude_packet 0 0 0 0) n));
      [| apply keep; reflexivity].
    unfold Att.buttons. repeat apply Forall_cons; try apply Forall_nil;
      unfold release; cbn [release_action]; intros w' [n Hn];
      unfold Att.check_and_reset;
      try destruct (Att.INCREMENTAL_MODE w'); cbn [negb]; exists n; exact Hn.
  - apply keep. reflexivity.
Qed.

Lemma velocity_handle_event_sends_zeros (e : Event) (w : Vel.World) (running : bool) :
  exists n, Vel.sock (fst (Vel.handle_event e (w, running)))
            = Vel.sock w ++ repeat (Vel.velocity_body_packet 0 0 0 0) n.
Proof.
  assert (keep : forall w' : Vel.World,
             Vel.sock w' = Vel.sock w ->
             exists n, Vel.sock w' = Vel.sock w ++ repeat (Vel.velocity_body_packet 0 0 0 0) n).
  { intros w' H. exists 0%nat. cbn [repeat]. rewrite app_nil_r. exact H. }
  destruct e as [| key | key | mouse_pos | |]; cbn [Vel.handle_event fst].
  - apply keep. reflexivity.
  - unfold Vel.on_keydown.
    destruct key; cbn; destruct (Vel.enabled w); cbn [fst];
      first [ apply keep; reflexivity | exists 1%nat; reflexivity ].
  - unfold Vel.on_keyup.
    destruct key; destruct (Vel.INCREMENTAL_MODE w); cbn [negb];
      apply keep; reflexivity.
  - apply (click_all_preserves
             (fun w' => exists n, Vel.sock w'
                                  = Vel.sock w ++ repeat (Vel.velocity_body_packet 0 0 0 0) n));
      [| apply keep; reflexivity].
    unfold Vel.buttons. repeat apply Forall_cons; try apply Forall_nil;
      cbn [action]; intros w' [n Hn]; unfold Vel.check_enabled;
      try destruct (Vel.enabled w');
      first [ exists n; exact Hn
            | exists (S n);
              cbn [Vel.disable_control Vel.send_velocity_body Vel.sendto Vel.sock
                   Vel.set_enabled];
              rewrite Hn, <- app_assoc, <- repeat_cons; reflexivity ].
  - apply (release_all_preserves
             (fun w' => exists n, Vel.sock w'
                                  = Vel.sock w ++ repeat (Vel.velocity_body_packet 0 0 0 0) n));
      [| apply keep; reflexivity].
    unfold Vel.buttons. repeat apply Forall_cons; try apply Forall_nil;
      unfold release; cbn [release_action]; intros w' [n Hn];
      unfold Vel.check_and_reset;
      try destruct (Vel.INCREMENTAL_MODE w'); cbn [negb]; exists n; exact Hn.
  - apply keep. reflexivity.
Qed.

(** X4.  Event handlers never send axis values.  In both scripts, what
    the handling of any batch of events appends to the socket is a run
    of zero packets (one per Disable or Quit); the live axis values go
    out only through the send at the end of a loop iteration, after the
    whole batch has been handled. *)
Theorem X4_handlers_send_only_zero_packets :
  forall (es : list Event) (wa : Att.World) (wv : Vel.World) (running : bool),
    (exists n, Att.sock (fst (Att.handle_events es (wa, running)))
               = Att.sock wa ++ repeat (Att.attitude_packet 0 0 0 0) n) /\
    (exists n, Vel.sock (fst (Vel.handle_events es (wv, running)))
               = Vel.sock wv ++ repeat (Vel.velocity_body_packet 0 0 0 0) n).
Proof.
  intros es wa wv running. split.
  - apply (attitude_handle_events_invariant
             (fun w' => exists n, Att.sock w'
                                  = Att.sock wa ++ repeat (Att.attitude_packet 0 0 0 0) n)).
    + intros e w r [n Hn].
      destruct (attitude_handle_event_sends_zeros e w r) as [m Hm].
      exists (n + m)%nat. rewrite Hm, Hn, <- app_assoc, repeat_app. reflexivity.
    + exists 0%nat. cbn [repeat fst]. rewrite app_nil_r. reflexivity.
  - apply (velocity_handle_events_invariant
             (fun w' => exists n, Vel.sock w'
                                  = Vel.sock wv ++ repeat (Vel.velocity_body_packet 0 0 0 0) n)).
    + intros e w r [n Hn].
      destruct (velocity_handle_event_sends_zeros e w r) as [m Hm].
      exists (n + m)%nat. rewrite Hm, Hn, <- app_assoc, repeat_app. reflexivity.
    + exists 0%nat. cbn [repeat fst]. rewrite app_nil_r. reflexivity.
Qed.

Lemma attitude_packets_step (R : ControlPacket -> Prop)
      (e : Event) (w : Att.World) (running : bool) :
  R (Att.attitude_packet 0 0 0 0) ->
  Forall R (Att.sock w) ->
  Forall R (Att.sock (fst (Att.handle_event e (w, running)))).
Proof.
  intros Hz Hw. destruct (attitude_handle_event_sends_zeros e w running) as [n ->].
  apply Forall_app_repeat; assumption.
Qed.

Lemma velocity_packets_step (R : ControlPacket -> Prop)
      (e : Event) (w : Vel.World) (running : bool) :
  R (Vel.velocity_body_packet 0 0 0 0) ->
  Forall R (Vel.sock w) ->
  Forall R (Vel.sock (fst (Vel.handle_event e (w, running)))).
Proof.
  intros Hz Hw. destruct (velocity_handle_event_sends_zeros e w running) as [n ->].
  apply Forall_app_repeat; assumption.
Qed.

(** X5.  Whatever the events, every packet either script sends has
    [enable_flag] and [yaw_control_flag] set, and every packet the
    attitude sender sends carries a thrust within [0, 1] (the live
    thrust, or the 0 of the Disable/Quit packet). *)
Theorem X5_every_packet_enabled_with_bounded_thrust :
  forall batches : list (list Event),
    Forall (fun p => enable_flag p = true /\ yaw_control_flag p = true /\
                     0 <= packet_thrust p /\ packet_thrust p <= 1)
           (Att.sock (Att.main batches)) /\
    Forall (fun p => enable_flag p = true /\ yaw_control_flag p = true)
           (Vel.sock (Vel.main batches)).
Proof.
  intros batches. split.
  - set (R := fun p => enable_flag p = true /\ yaw_control_flag p = true /\
                       0 <= packet_thrust p /\ packet_thrust p <= 1).
    set (P := fun w => thrust_in_range w /\ Forall R (Att.sock w)).
    assert (Hz : R (Att.attitude_packet 0 0 0 0))
      by (unfold R, packet_thrust; cbn; repeat split; lra).
    assert (Hstep : forall e w r, P w -> P (fst (Att.handle_event e (w, r)))).
    { intros e w r [Ht Hs]. split.
      - apply attitude_handle_event_in_range, Ht.
      - apply attitude_packets_step; assumption. }
    assert (Hiter : forall es st, P (fst st) -> P (fst (Att.iteration es st))).
    { intros es st Hst. unfold Att.iteration.
      pose proof (attitude_handle_events_invariant P Hstep es st Hst) as H.
      destruct (Att.handle_events es st) as [w r]. cbn [fst] in *.
      destruct (Att.enabled w); [| exact H].
      destruct H as [Ht Hs]. split; [exact Ht |].
      cbn [Att.send_attitude Att.sendto Att.sock].
      apply Forall_app. split; [exact Hs |].
      constructor; [| constructor].
      unfold R, packet_thrust. cbn. destruct Ht as [Hlo Hhi]. repeat split; assumption. }
    assert (Hloop : forall bs st, P (fst st) -> P (fst (Att.main_loop bs st))).
    { induction bs as [| es rest IH]; intros st Hst; cbn [Att.main_loop].
      - exact Hst.
      - destruct (snd st); [| exact Hst]. apply IH, Hiter, Hst. }
    apply (Hloop batches (Att.initial, true)).
    split; [unfold thrust_in_range; cbn; lra | constructor].
  - apply (velocity_main_loop_invariant
             (fun w => Forall (fun p => enable_flag p = true /\ yaw_control_flag p = true)
                              (Vel.sock w))).
    + intros e w r H. apply velocity_packets_step; [split; reflexivity | exact H].
    + intros vx vy vz yr w H. cbn [Vel.send_velocity_body Vel.sendto Vel.sock].
      apply Forall_app. split; [exact H |].
      constructor; [split; reflexivity | constructor].
    + constructor.
Qed.

Lemma attitude_disabled_step (e : Event) (w : Att.World) (running : bool) :
  Att.enabled w = false -> may_enable e = false ->
  Att.enabled (fst (Att.handle_event e (w, running))) = false /\
  Att.sock (fst (Att.handle_event e (w, running)))
    = Att.sock w ++ (if sends_zero e then [Att.attitude_packet 0 0 0 0] else []).
Proof.
  intros He Hm.
  destruct w as [r p y t en inc s]. cbn [Att.enabled] in He. subst en.
  destruct e as [| key | key | mouse_pos | |]; try discriminate Hm.
  - cbn. rewrite app_nil_r. split; reflexivity.
  - destruct key; try discriminate Hm; cbn; rewrite ?app_nil_r; split; reflexivity.
  - destruct key, inc; cbn; rewrite app_nil_r; split; reflexivity.
  - destruct inc; cbn; rewrite app_nil_r; split; reflexivity.
  - cbn. rewrite app_nil_r. split; reflexivity.
Qed.

Lemma velocity_disabled_step (e : Event) (w : Vel.World) (running : bool) :
  Vel.enabled w = false -> may_enable e = false ->
  Vel.enabled (fst (Vel.handle_event e (w, running))) = false /\
  Vel.sock (fst (Vel.handle_event e (w, running)))
    = Vel.sock w ++ (if sends_zero e then [Vel.velocity_body_packet 0 0 0 0] else []).
Proof.
  intros He Hm.
  destruct w as [vx vy vz yr en inc s]. cbn [Vel.enabled] in He. subst en.
  destruct e as [| key | key | mouse_pos | |]; try discriminate Hm.
  - cbn. rewrite app_nil_r. split; reflexivity.
  - destruct key; try discriminate Hm; cbn; rewrite ?app_nil_r; split; reflexivity.
  - destruct key, inc; cbn; rewrite app_nil_r; split; reflexivity.
  - destruct inc; cbn; rewrite app_nil_r; split; reflexivity.
  - cbn. rewrite app_nil_r. split; reflexivity.
Qed.

Lemma attitude_disabled_batch (es : list Event) :
  forall (w : Att.World) (running : bool),
    Att.enabled w = false ->
    forallb (fun e => negb (may_enable e)) es = true ->
    Att.enabled (fst (Att.handle_events es (w, running))) = false /\
    Att.sock (fst (Att.handle_events es (w, running)))
      = Att.sock w ++ repeat (Att.attitude_packet 0 0 0 0)
                             (List.length (filter sends_zero es)).
Proof.
  unfold Att.handle_events.
  induction es as [| e es IH]; intros w running He Hes; cbn [fold_left filter].
  - cbn. rewrite app_nil_r. split; [exact He | reflexivity].
  - cbn [forallb] in Hes. apply andb_prop in Hes. destruct Hes as [Hm Hes].
    apply negb_true_iff in Hm.
    destruct (attitude_disabled_step e w running He Hm) as [He1 Hs1].
    destruct (Att.handle_event e (w, running)) as [w1 r1]. cbn [fst] in He1, Hs1.
    destruct (IH w1 r1 He1 Hes) as [He2 Hs2].
    split; [exact He2 |].
    rewrite Hs2, Hs1, <- app_assoc.
    destruct (sends_zero e); reflexivity.
Qed.

Lemma velocity_disabled_batch (es : list Event) :
  forall (w : Vel.World) (running : bool),
    Vel.enabled w = false ->
    forallb (fun e => negb (may_enable e)) es = true ->
    Vel.enabled (fst (Vel.handle_events es (w, running))) = false /\
    Vel.sock (fst (Vel.handle_events es (w, running)))
      = Vel.sock w ++ repeat (Vel.velocity_body_packet 0 0 0 0)
                             (List.length (filter sends_zero es)).
Proof.
  unfold Vel.handle_events.
  induction es as [| e es IH]; intros w running He Hes; cbn [fold_left filter].
  - cbn. rewrite app_nil_r. split; [exact He | reflexivity].
  - cbn [forallb] in Hes. apply andb_prop in Hes. destruct Hes as [Hm Hes].
    apply negb_true_iff in Hm.
    destruct (velocity_disabled_step e w running He Hm) as [He1 Hs1].
    destruct (Vel.handle_event e (w, running)) as [w1 r1]. cbn [fst] in He1, Hs1.
    destruct (IH w1 r1 He1 Hes) as [He2 Hs2].
    split; [exact He2 |].
    rewrite Hs2, Hs1, <- app_assoc.
    destruct (sends_zero e); reflexivity.
Qed.

(** X6.  A disabled sender stays silent apart from zero packets.  If
    [enabled] is false and the batch holds neither the Enable key nor a
    mouse press, then the loop iteration leaves [enabled] false and
    sends exactly one zero packet per Disable or Quit key press in the
    batch, and nothing else: no axis value reaches the socket. *)
Theorem X6_disabled_sender_sends_only_zero_packets :
  forall (es : list Event) (wa : Att.World) (wv : Vel.World) (running : bool),
    Att.enabled wa = false ->
    Vel.enabled wv = false ->
    forallb (fun e => negb (may_enable e)) es = true ->
    (Att.enabled (fst (Att.iteration es (wa, running))) = false /\
     Att.sock (fst (Att.iteration es (wa, running)))
       = Att.sock wa ++ repeat (Att.attitude_packet 0 0 0 0)
                               (List.length (filter sends_zero es))) /\
    (Vel.enabled (fst (Vel.iteration es (wv, running))) = false /\
     Vel.sock (fst (Vel.iteration es (wv, running)))
       = Vel.sock wv ++ repeat (Vel.velocity_body_packet 0 0 0 0)
                               (List.length (filter sends_zero es))).
Proof.
  intros es wa wv running Ha Hv Hes. split.
  - destruct (attitude_disabled_batch es wa running Ha Hes) as [He Hs].
    unfold Att.iteration.
    destruct (Att.handle_events es (wa, running)) as [w r]. cbn [fst] in *.
    rewrite He. cbn [fst]. split; assumption.
  - destruct (velocity_disabled_batch es wv running Hv Hes) as [He Hs].
    unfold Vel.iteration.
    destruct (Vel.handle_events es (wv, running)) as [w r]. cbn [fst] in *.
    rewrite He. cbn [fst]. split; assumption.
Qed.

Lemma X6_disabled_sender_sends_only_zero_packets_witness :
  Att.sock (fst (Att.iteration [KEYDOWN K_w; KEYDOWN K_c; KEYUP K_w; KEYDOWN K_UP]
                               (Att.initial, true)))
    = [Att.attitude_packet 0 0 0 0] /\
  Vel.sock (fst (Vel.iteration [KEYDOWN K_w; KEYDOWN K_c; KEYUP K_w; KEYDOWN K_UP]
                               (Vel.initial, true)))
    = [Vel.velocity_body_packet 0 0 0 0].
Proof.
  destruct (X6_disabled_sender_sends_only_zero_packets
              [KEYDOWN K_w; KEYDOWN K_c; KEYUP K_w; KEYDOWN K_UP]
              Att.initial Vel.initial true eq_refl eq_refl eq_refl)
    as [[_ Ha] [_ Hv]].
  split; [exact Ha | exact Hv].
Defined.

(** ** Leaving the loop *)

Lemma attitude_running_stays_false (e : Event) (w : Att.World) :
  snd (Att.handle_event e (w, false)) = false.
Proof.
  destruct e as [| key | key | mouse_pos | |]; try reflexivity.
  cbn [Att.handle_event]. unfold Att.on_keydown. destruct key; reflexivity.
Qed.

Lemma velocity_running_stays_false (e : Event) (w : Vel.World) :
  snd (Vel.handle_event e (w, false)) = false.
Proof.
  destruct e as [| key | key | mouse_pos | |]; try reflexivity.
  cbn [Vel.handle_event]. unfold Vel.on_keydown. destruct key; reflexivity.
Qed.

Lemma attitude_running_after (es : list Event) :
  forall (w : Att.World) (running : bool),
    snd (Att.handle_events es (w, running))
      = running && negb (existsb stops_loop es).
Proof.
  unfold Att.handle_events.
  induction es as [| e es IH]; intros w running; cbn [fold_left existsb].
  - rewrite andb_true_r. reflexivity.
  - destruct (Att.handle_event e (w, running)) as [w1 r1] eqn:E.
    rewrite IH. rewrite negb_orb, andb_assoc. f_equal.
    change r1 with (snd (w1, r1)). rewrite <- E.
    destruct running; [| rewrite attitude_running_stays_false; reflexivity].
    destruct e as [| key | key | mouse_pos | |]; try reflexivity.
    cbn [Att.handle_event]. unfold Att.on_keydown. destruct key; reflexivity.
Qed.

Lemma velocity_running_after (es : list Event) :
  forall (w : Vel.World) (running : bool),
    snd (Vel.handle_events es (w, running))
      = running && negb (existsb stops_loop es).
Proof.
  unfold Vel.handle_events.
  induction es as [| e es IH]; intros w running; cbn [fold_left existsb].
  - rewrite andb_true_r. reflexivity.
  - destruct (Vel.handle_event e (w, running)) as [w1 r1] eqn:E.
    rewrite IH. rewrite negb_orb, andb_assoc. f_equal.
    change r1 with (snd (w1, r1)). rewrite <- E.
    destruct running; [| rewrite velocity_running_stays_false; reflexivity].
    destruct e as [| key | key | mouse_pos | |]; try reflexivity.
    cbn [Vel.handle_event]. unfold Vel.on_keydown. destruct key; reflexivity.
Qed.

(** X7.  [running] is cleared by the window-close event and by the Quit
    key and by nothing else, and no event sets it again.  So the loop
    runs an iteration to its end (later events of the batch included)
    exactly when no earlier batch held one of the two, and a batch that
    holds one is the last one handled: the batches after it are never
    looked at. *)
Theorem X7_loop_stops_after_quit_batch :
  forall (es : list Event) (rest : list (list Event))
         (wa : Att.World) (wv : Vel.World),
    (snd (Att.iteration es (wa, true)) = negb (existsb stops_loop es) /\
     snd (Vel.iteration es (wv, true)) = negb (existsb stops_loop es)) /\
    (existsb stops_loop es = true ->
     Att.main_loop (es :: rest) (wa, true) = Att.iteration es (wa, true) /\
     Vel.main_loop (es :: rest) (wv, true) = Vel.iteration es (wv, true)) /\
    (existsb stops_loop es = false ->
     Att.main_loop (es :: rest) (wa, true)
       = Att.main_loop rest (fst (Att.iteration es (wa, true)), true) /\
     Vel.main_loop (es :: rest) (wv, true)
       = Vel.main_loop rest (fst (Vel.iteration es (wv, true)), true)).
Proof.
  intros es rest wa wv.
  assert (Ha : snd (Att.iteration es (wa, true)) = negb (existsb stops_loop es)).
  { unfold Att.iteration.
    pose proof (attitude_running_after es wa true) as H.
    destruct (Att.handle_events es (wa, true)) as [w r]. exact H. }
  assert (Hv : snd (Vel.iteration es (wv, true)) = negb (existsb stops_loop es)).
  { unfold Vel.iteration.
    pose proof (velocity_running_after es wv true) as H.
    destruct (Vel.handle_events es (wv, true)) as [w r]. exact H. }
  split; [split; assumption |].
  split; intros Hs; rewrite Hs in Ha, Hv; cbn [negb] in Ha, Hv;
    cbn [Att.main_loop Vel.main_loop snd].
  - destruct (Att.iteration es (wa, true)) as [w1 r1].
    destruct (Vel.iteration es (wv, true)) as [w2 r2].
    cbn [snd] in Ha, Hv. subst.
    destruct rest; split; reflexivity.
  - destruct (Att.iteration es (wa, true)) as [w1 r1].
    destruct (Vel.iteration es (wv, true)) as [w2 r2].
    cbn [snd fst] in *. subst. split; reflexivity.
Qed.

Lemma X7_loop_stops_after_quit_batch_witness :
  Att.main_loop [[KEYDOWN K_e; KEYDOWN K_q; KEYDOWN K_w]; [KEYDOWN K_d]] (Att.initial, true)
    = Att.iteration [KEYDOWN K_e; KEYDOWN K_q; KEYDOWN K_w] (Att.initial, true) /\
  Vel.main_loop [[KEYDOWN K_e; KEYDOWN K_q; KEYDOWN K_w]; [KEYDOWN K_d]] (Vel.initial, true)
    = Vel.iteration [KEYDOWN K_e; KEYDOWN K_q; KEYDOWN K_w] (Vel.initial, true).
Proof.
  apply (proj1 (proj2 (X7_loop_stops_after_quit_batch
                         [KEYDOWN K_e; KEYDOWN K_q; KEYDOWN K_w] [[KEYDOWN K_d]]
                         Att.initial Vel.initial))).
  reflexivity.
Defined.

(** X8.  Leaving while enabled does not end on a zero packet.  The Quit
    key sends its zero packet but leaves [enabled] set, so the send at
    the end of the same iteration follows it with the live axis values;
    the window-close event sends no zero packet at all.  In both cases
    the loop is left and the last packet sent carries the live axis
    values. *)
Theorem X8_quit_while_enabled_ends_on_live_packet :
  forall (wa : Att.World) (wv : Vel.World) (rest : list (list Event)),
    Att.enabled wa = true ->
    Vel.enabled wv = true ->
    let live_a := Att.attitude_packet (Att.roll wa) (Att.pitch wa)
                                      (Att.yaw wa) (Att.thrust wa) in
    let live_v := Vel.velocity_body_packet (Vel.velocity_x wv) (Vel.velocity_y wv)
                                           (Vel.velocity_z wv) (Vel.yaw_rate wv) in
    (Att.sock (fst (Att.main_loop ([KEYDOWN K_q] :: rest) (wa, true)))
       = Att.sock wa ++ [Att.attitude_packet 0 0 0 0; live_a] /\
     Att.sock (fst (Att.main_loop ([QUIT] :: rest) (wa, true)))
       = Att.sock wa ++ [live_a]) /\
    (Vel.sock (fst (Vel.main_loop ([KEYDOWN K_q] :: rest) (wv, true)))
       = Vel.sock wv ++ [Vel.velocity_body_packet 0 0 0 0; live_v] /\
     Vel.sock (fst (Vel.main_loop ([QUIT] :: rest) (wv, true)))
       = Vel.sock wv ++ [live_v]).
Proof.
  intros [r p y t e i s] [vx vy vz yr ev iv sv] rest Ha Hv.
  cbn [Att.enabled Vel.enabled] in Ha, Hv. subst e ev.
  destruct rest; cbn -[app]; rewrite <- ?app_assoc; repeat split; reflexivity.
Qed.

Lemma X8_quit_while_enabled_ends_on_live_packet_witness :
  Att.sock (fst (Att.main_loop [[KEYDOWN K_q]]
                   (Att.mkWorld 2 0 5 (1 # 2) true false [], true)))
    = [Att.attitude_packet 0 0 0 0; Att.attitude_packet 2 0 5 (1 # 2)] /\
  Vel.sock (fst (Vel.main_loop [[KEYDOWN K_q]]
                   (Vel.mkWorld 1 0 0 5 true false [], true)))
    = [Vel.velocity_body_packet 0 0 0 0; Vel.velocity_body_packet 1 0 0 5].
Proof.
  destruct (X8_quit_while_enabled_ends_on_live_packet
              (Att.mkWorld 2 0 5 (1 # 2) true false [])
              (Vel.mkWorld 1 0 0 5 true false []) [] eq_refl eq_refl)
    as [[Ha _] [Hv _]].
  split; [exact Ha | exact Hv].
Defined.

(** ** Command keys *)

Lemma attitude_handle_events_app (es1 es2 : list Event) (st : Att.World * bool) :
  Att.handle_events (es1 ++ es2) st = Att.handle_events es2 (Att.handle_events es1 st).
Proof. unfold Att.handle_events. apply fold_left_app. Qed.

Lemma velocity_handle_events_app (es1 es2 : list Event) (st : Vel.World * bool) :
  Vel.handle_events (es1 ++ es2) st = Vel.handle_events es2 (Vel.handle_events es1 st).
Proof. unfold Vel.handle_events. apply fold_left_app. Qed.

(** X9.  Hold recentres, it does not freeze: the Hold key puts every
    axis back to its start value (0, thrust 0.5) and touches neither
    [enabled], nor the control law, nor the socket.  When Hold is the
    last event of a batch, whatever the batch did to the axes before,
    the packet sent at the end of the iteration, if the sender is
    enabled, is the neutral one. *)
Theorem X9_hold_recentres_whatever_came_before :
  forall (es : list Event) (wa : Att.World) (wv : Vel.World) (running : bool),
    let sa := Att.handle_events es (wa, running) in
    let sv := Vel.handle_events es (wv, running) in
    Att.iteration (es ++ [KEYDOWN K_h]) (wa, running)
      = (let w := Att.mkWorld 0 0 0 (1 # 2) (Att.enabled (fst sa))
                              (Att.INCREMENTAL_MODE (fst sa)) (Att.sock (fst sa)) in
         if Att.enabled (fst sa)
         then Att.sendto (Att.attitude_packet 0 0 0 (1 # 2)) w else w,
         snd sa) /\
    Vel.iteration (es ++ [KEYDOWN K_h]) (wv, running)
      = (let w := Vel.mkWorld 0 0 0 0 (Vel.enabled (fst sv))
                              (Vel.INCREMENTAL_MODE (fst sv)) (Vel.sock (fst sv)) in
         if Vel.enabled (fst sv)
         then Vel.sendto (Vel.velocity_body_packet 0 0 0 0) w else w,
         snd sv).
Proof.
  intros es wa wv running sa sv. subst sa sv.
  unfold Att.iteration, Vel.iteration.
  rewrite attitude_handle_events_app, velocity_handle_events_app.
  destruct (Att.handle_events es (wa, running)) as [[r p y t e i s] ra].
  destruct (Vel.handle_events es (wv, running)) as [[vx vy vz yr ev iv sv] rv].
  destruct e, ev; split; reflexivity.
Qed.

(** X10.  How the command keys compose, in both scripts: pressing Mode
    twice restores the state exactly; Enable and Hold are idempotent;
    Enable right after Disable restores the state except for the one
    zero packet Disable sent. *)
Theorem X10_command_keys_compose :
  forall (wa : Att.World) (wv : Vel.World) (running : bool),
    (Att.handle_events [KEYDOWN K_m; KEYDOWN K_m] (wa, running) = (wa, running) /\
     Att.handle_events [KEYDOWN K_e; KEYDOWN K_e] (wa, running)
       = Att.handle_event (KEYDOWN K_e) (wa, running) /\
     Att.handle_events [KEYDOWN K_h; KEYDOWN K_h] (wa, running)
       = Att.handle_event (KEYDOWN K_h) (wa, running) /\
     (Att.enabled wa = true ->
      Att.handle_events [KEYDOWN K_c; KEYDOWN K_e] (wa, running)
        = (Att.sendto (Att.attitude_packet 0 0 0 0) wa, running)))
    /\
    (Vel.handle_events [KEYDOWN K_m; KEYDOWN K_m] (wv, running) = (wv, running) /\
     Vel.handle_events [KEYDOWN K_e; KEYDOWN K_e] (wv, running)
       = Vel.handle_event (KEYDOWN K_e) (wv, running) /\
     Vel.handle_events [KEYDOWN K_h; KEYDOWN K_h] (wv, running)
       = Vel.handle_event (KEYDOWN K_h) (wv, running) /\
     (Vel.enabled wv = true ->
      Vel.handle_events [KEYDOWN K_c; KEYDOWN K_e] (wv, running)
        = (Vel.sendto (Vel.velocity_body_packet 0 0 0 0) wv, running))).
Proof.
  intros [r p y t e i s] [vx vy vz yr ev iv sv] running.
  split; repeat split; try (intros H; cbn in H; subst);
    try (destruct e, i; reflexivity); try (destruct ev, iv; reflexivity);
    reflexivity.
Qed.

Lemma X10_command_keys_compose_witness :
  Att.handle_events [KEYDOWN K_c; KEYDOWN K_e] (Att.enable_control Att.initial, true)
    = (Att.sendto (Att.attitude_packet 0 0 0 0) (Att.enable_control Att.initial), true) /\
  Vel.handle_events [KEYDOWN K_c; KEYDOWN K_e] (Vel.enable_control Vel.initial, true)
    = (Vel.sendto (Vel.velocity_body_packet 0 0 0 0) (Vel.enable_control Vel.initial), true).
Proof.
  destruct (X10_command_keys_compose (Att.enable_control Att.initial)
              (Vel.enable_control Vel.initial) true)
    as [[_ [_ [_ Ha]]] [_ [_ [_ Hv]]]].
  split; [apply Ha | apply Hv]; reflexivity.
Defined.

(** ** Thrust steps *)





(** ** Axis keys *)

(** X12.  Each axis key writes one global only.  In both scripts, the
    press and the release of an axis key change at most the axis that
    key is bound to: the other three axes, [enabled], the control law,
    the socket and [running] are left as they were. *)
Theorem X12_axis_key_writes_its_own_axis_only :
  forall (key : Key) (set_a : Q -> Att.World -> Att.World)
         (set_v : Q -> Vel.World -> Vel.World)
         (wa : Att.World) (wv : Vel.World) (running : bool),
    attitude_axis key = Some set_a ->
    velocity_axis key = Some set_v ->
    (exists v, Att.handle_event (KEYDOWN key) (wa, running) = (set_a v wa, running)) /\
    (exists v, Att.handle_event (KEYUP key) (wa, running) = (set_a v wa, running)) /\
    (exists v, Vel.handle_event (KEYDOWN key) (wv, running) = (set_v v wv, running)) /\
    (exists v, Vel.handle_event (KEYUP key) (wv, running) = (set_v v wv, running)).
Proof.
  intros key set_a set_v [r p y t e i s] [vx vy vz yr ev iv sv] running Ha Hv.
  destruct key; try discriminate Ha;
    injection Ha as <-; injection Hv as <-;
    destruct e, i, ev, iv; repeat apply conj; eexists; reflexivity.
Qed.

Lemma X12_axis_key_writes_its_own_axis_only_witness :
  (exists v, Att.handle_event (KEYDOWN K_UP) (Att.enable_control Att.initial, true)
             = (Att.set_thrust v (Att.enable_control Att.initial), true)) /\
  (exists v, Vel.handle_event (KEYUP K_UP) (Vel.enable_control Vel.initial, true)
             = (Vel.set_velocity_z v (Vel.enable_control Vel.initial), true)).
Proof.
  destruct (X12_axis_key_writes_its_own_axis_only K_UP Att.set_thrust Vel.set_velocity_z
              (Att.enable_control Att.initial) (Vel.enable_control Vel.initial) true
              eq_refl eq_refl)
    as [Ha [_ [_ Hv]]].
  split; [exact Ha | exact Hv].
Defined.

(** X13.  A press followed by the release of the same axis key.  Under
    the instant-reset law the pair has the effect of the release alone
    (the axis ends at 0 whatever it was and whether or not the sender
    is enabled), for every axis key of the velocity sender and every
    axis key but the two thrust keys of the attitude sender.  Under the
    incremental law the pair has the effect of the press alone. *)
Theorem X13_press_then_release :
  forall (key : Key) (wa : Att.World) (wv : Vel.World) (running : bool),
    In key axis_keys ->
    (Att.INCREMENTAL_MODE wa = false -> key <> K_UP -> key <> K_DOWN ->
     Att.handle_events [KEYDOWN key; KEYUP key] (wa, running)
       = Att.handle_event (KEYUP key) (wa, running)) /\
    (Att.INCREMENTAL_MODE wa = true ->
     Att.handle_events [KEYDOWN key; KEYUP key] (wa, running)
       = Att.handle_event (KEYDOWN key) (wa, running)) /\
    (Vel.INCREMENTAL_MODE wv = false ->
     Vel.handle_events [KEYDOWN key; KEYUP key] (wv, running)
       = Vel.handle_event (KEYUP key) (wv, running)) /\
    (Vel.INCREMENTAL_MODE wv = true ->
     Vel.handle_events [KEYDOWN key; KEYUP key] (wv, running)
       = Vel.handle_event (KEYDOWN key) (wv, running)).
Proof.
  intros key [r p y t e i s] [vx vy vz yr ev iv sv] running Hkey.
  cbn [Att.INCREMENTAL_MODE Vel.INCREMENTAL_MODE].
  unfold axis_keys in Hkey. cbn [In] in Hkey.
  repeat (destruct Hkey as [<- | Hkey]); try contradiction.
  all: repeat apply conj; intros; subst; try congruence;
       first [ destruct e; reflexivity | destruct ev; reflexivity ].
Qed.

Lemma X13_press_then_release_witness :
  Att.handle_events [KEYDOWN K_d; KEYUP K_d] (Att.mkWorld 4 0 0 (1 # 2) true false [], true)
    = (Att.mkWorld 0 0 0 (1 # 2) true false [], true) /\
  Vel.handle_events [KEYDOWN K_d; KEYUP K_d] (Vel.mkWorld 0 3 0 0 true false [], true)
    = (Vel.mkWorld 0 0 0 0 true false [], true).
Proof.
  destruct (X13_press_then_release K_d (Att.mkWorld 4 0 0 (1 # 2) true false [])
              (Vel.mkWorld 0 3 0 0 true false []) true)
    as [Ha [_ [Hv _]]].
  - unfold axis_keys. cbn [In]. do 3 right. left. reflexivity.
  - split.
    + apply Ha; [reflexivity | discriminate | discriminate].
    + apply Hv. reflexivity.
Defined.

Lemma one_of_three_cases (step v : Q) :
  v = - step \/ v = 0 \/ v = step -> one_of_three step v.
Proof.
  unfold one_of_three. intros [-> | [-> | ->]];
    [left | right; left | right; right]; reflexivity.
Qed.

Lemma velocity_instant_step (e : Event) (w : Vel.World) (running : bool) :
  Vel.INCREMENTAL_MODE w = false -> may_toggle e = false ->
  velocity_axes_instant w ->
  Vel.INCREMENTAL_MODE (fst (Vel.handle_event e (w, running))) = false /\
  velocity_axes_instant (fst (Vel.handle_event e (w, running))).
Proof.
  intros Hi Hm Hw.
  destruct w as [vx vy vz yr en inc s]. cbn [Vel.INCREMENTAL_MODE] in Hi. subst inc.
  destruct Hw as [Hx [Hy [Hz Hr]]].
  cbn [Vel.velocity_x Vel.velocity_y Vel.velocity_z Vel.yaw_rate] in Hx, Hy, Hz, Hr.
  assert (neg : forall step, one_of_three step (- step))
    by (intros; apply one_of_three_cases; left; reflexivity).
  assert (zero : forall step, one_of_three step 0)
    by (intros; apply one_of_three_cases; right; left; reflexivity).
  assert (pos : forall step, one_of_three step step)
    by (intros; apply one_of_three_cases; right; right; reflexivity).
  destruct e as [| key | key | mouse_pos | |]; try discriminate Hm.
  - split; [reflexivity | repeat split; assumption].
  - destruct key; try discriminate Hm; destruct en;
      (split; [reflexivity |]); unfold velocity_axes_instant;
      cbn [Vel.handle_event Vel.on_keydown fst Vel.enabled Vel.velocity_x
           Vel.velocity_y Vel.velocity_z Vel.yaw_rate Vel.INCREMENTAL_MODE
           Vel.disable_control Vel.reset_control Vel.send_velocity_body Vel.sendto
           Vel.set_enabled Vel.enable_control Vel.move_forward Vel.move_backward
           Vel.move_left Vel.move_right Vel.ascend Vel.descend Vel.yaw_left
           Vel.yaw_right Vel.set_velocity_x Vel.set_velocity_y Vel.set_velocity_z
           Vel.set_yaw_rate negb];
      repeat apply conj; first [assumption | apply neg | apply zero | apply pos].
  - destruct key; (split; [reflexivity |]); unfold velocity_axes_instant;
      cbn [Vel.handle_event Vel.on_keyup fst Vel.velocity_x
           Vel.velocity_y Vel.velocity_z Vel.yaw_rate Vel.INCREMENTAL_MODE
           Vel.reset_velocity_x Vel.reset_velocity_y Vel.reset_velocity_z
           Vel.reset_yaw_rate Vel.set_velocity_x Vel.set_velocity_y Vel.set_velocity_z
           Vel.set_yaw_rate negb];
      repeat apply conj; first [assumption | apply zero].
  - split; [reflexivity |]. repeat apply conj; apply zero.
  - split; [reflexivity | repeat split; assumption].
Qed.

(** X14.  Under the instant-reset law the velocity sender commands only
    three values per axis.  If the law is instant-reset, every velocity
    is one of [-DEFAULT_SPEED], [0], [DEFAULT_SPEED] and the yaw rate is
    one of [-YAW_RATE_STEP], [0], [YAW_RATE_STEP] (as in the initial
    state), then this still holds after any batch of events that holds
    neither the Mode key nor a mouse press. *)
Theorem X14_velocity_axes_three_valued_under_instant_reset :
  forall (es : list Event) (w : Vel.World) (running : bool),
    Vel.INCREMENTAL_MODE w = false ->
    velocity_axes_instant w ->
    forallb (fun e => negb (may_toggle e)) es = true ->
    Vel.INCREMENTAL_MODE (fst (Vel.handle_events es (w, running))) = false /\
    velocity_axes_instant (fst (Vel.handle_events es (w, running))).
Proof.
  unfold Vel.handle_events.
  induction es as [| e es IH]; intros w running Hi Hw Hes; cbn [fold_left].
  - split; assumption.
  - cbn [forallb] in Hes. apply andb_prop in Hes. destruct Hes as [Hm Hes].
    apply negb_true_iff in Hm.
    destruct (velocity_instant_step e w running Hi Hm Hw) as [Hi1 Hw1].
    destruct (Vel.handle_event e (w, running)) as [w1 r1]. cbn [fst] in Hi1, Hw1.
    apply IH; assumption.
Qed.

Lemma X14_velocity_axes_three_valued_under_instant_reset_witness :
  velocity_axes_instant
    (fst (Vel.handle_events [KEYDOWN K_e; KEYDOWN K_w; KEYDOWN K_LEFT; KEYUP K_w]
                            (Vel.initial, true))).
Proof.
  apply (X14_velocity_axes_three_valued_under_instant_reset
           [KEYDOWN K_e; KEYDOWN K_w; KEYDOWN K_LEFT; KEYUP K_w] Vel.initial true).
  - reflexivity.
  - unfold velocity_axes_instant, Vel.initial.
    cbn [Vel.velocity_x Vel.velocity_y Vel.velocity_z Vel.yaw_rate].
    repeat apply conj; right; left; reflexivity.
  - reflexivity.
Defined.


